(** * The [run] command of the Acrobi CLI (src/dist/index.js, [runCommand])

    A shallow embedding of the task execution orchestrator: the engine
    check, the two-source runtime resolution, the tool loader, the native
    and the legacy engine and the result reporter, followed by the
    properties of the specification that concern them.

    JavaScript strings are sequences of UTF-16 code units; effects are an
    ordered trace of observable events together with the way the
    computation completed (normally, by a thrown error, or by
    [process.exit]). *)

From Stdlib Require Import List NArith ZArith Bool String Ascii Lia.
From Stdlib Require Import DecimalString.
Import ListNotations.

Set Implicit Arguments.

(* ===================================================================== *)
(** ** JavaScript strings *)
(* ===================================================================== *)

Module Js.

(** A string is its list of UTF-16 code units. *)
Definition str := list N.

(** An ASCII literal. *)
Definition lit (s : string) : str :=
  map N_of_ascii (list_ascii_of_string s).

Definition dquote : str := [34%N].
Definition newline : str := [10%N].

Fixpoint eqb (a b : str) : bool :=
  match a, b with
  | [], [] => true
  | x :: a', y :: b' => N.eqb x y && eqb a' b'
  | _, _ => false
  end.

(** [s.startsWith(p)] *)
Fixpoint startsWith (p s : str) : bool :=
  match p, s with
  | [], _ => true
  | x :: p', y :: s' => N.eqb x y && startsWith p' s'
  | _ :: _, [] => false
  end.

(** [s.includes(p)] *)
Fixpoint includes (p s : str) : bool :=
  startsWith p s ||
  match s with
  | [] => false
  | _ :: s' => includes p s'
  end.

(** [toLowerCase] and [toUpperCase] on the ASCII letters.  Outside ASCII
    the only code units whose lower-case form contains an ASCII letter
    are U+212A (k) and U+0130 (i followed by U+0307); none of the needles
    tested on a lower-cased task ("playwright", "browser", "title of")
    has a k, or an i at its end, so leaving the other code units in
    place does not change any [includes] test of [runCommand]. *)
Definition lower_unit (c : N) : N :=
  if (65 <=? c)%N && (c <=? 90)%N then (c + 32)%N else c.
Definition upper_unit (c : N) : N :=
  if (97 <=? c)%N && (c <=? 122)%N then (c - 32)%N else c.
Definition toLowerCase (s : str) : str := map lower_unit s.
Definition toUpperCase (s : str) : str := map upper_unit s.

(** The class [\s]: WhiteSpace and LineTerminator of ECMAScript. *)
Definition is_space (c : N) : bool :=
  ((9 <=? c) && (c <=? 13) || (c =? 32) || (c =? 160) || (c =? 5760)
   || (8192 <=? c) && (c <=? 8202) || (c =? 8232) || (c =? 8233)
   || (c =? 8239) || (c =? 8287) || (c =? 12288) || (c =? 65279))%N.

(** A number in a template literal. *)
Definition of_Z (z : Z) : str := lit (NilZero.string_of_int (Z.to_int z)).
Definition of_nat (n : nat) : str := of_Z (Z.of_nat n).

(** [path.basename] of a normalised absolute path: what follows the last
    separator. *)
Fixpoint basename_from (acc s : str) : str :=
  match s with
  | [] => acc
  | c :: s' => if N.eqb c 47 then basename_from [] s' else basename_from (acc ++ [c]) s'
  end.
Definition basename (s : str) : str := basename_from [] s.

(** JavaScript truthiness of a string: the empty string is falsy. *)
Definition truthy (s : str) : bool :=
  match s with [] => false | _ => true end.

End Js.

(* ===================================================================== *)
(** ** The regular expression of the legacy agent *)
(* ===================================================================== *)

Module Regex.

(** The fragment of the pattern language that
    [/(?:title of|visit|go to|navigate to)\s+([^\s]+)/i] uses: pattern
    characters, the empty pattern, the class [\s] and its complement, sequence, alternation,
    greedy [+] on a one-character matcher, and a capturing group. *)
Inductive atom : Type :=
| Chr (c : N)
| Space
| NotSpace.

Inductive regex : Type :=
| Empty
| Atom (a : atom)
| Seq (r1 r2 : regex)
| Alt (r1 r2 : regex)
| Plus (a : atom)
| Group (r : regex).

(** Canonicalize of the [i] flag without [u]: a code unit is compared by
    its upper-case form, and a code unit above 127 is never mapped to
    one below 128, so against the ASCII pattern characters used here only
    the ASCII letters fold. *)
Definition canonicalize (c : N) : N := Js.upper_unit c.

Definition atom_matches (a : atom) (c : N) : bool :=
  match a with
  | Chr p => N.eqb (canonicalize c) (canonicalize p)
  | Space => Js.is_space c
  | NotSpace => negb (Js.is_space c)
  end.

Section Matcher.
Variable R : Type.

(** Greedy [a+]: one more iteration is tried before the continuation. *)
Fixpoint plus_atom (a : atom) (s : Js.str) (k : Js.str -> option R) : option R :=
  match s with
  | [] => None
  | c :: s' =>
      if atom_matches a c then
        match plus_atom a s' k with
        | Some r => Some r
        | None => k s'
        end
      else None
  end.

(** The backtracking matcher: [s] is the rest of the input, [cap] the
    capture of group 1 so far, [k] the continuation. *)
Fixpoint run (r : regex) (s : Js.str) (cap : option Js.str)
         (k : Js.str -> option Js.str -> option R) : option R :=
  match r with
  | Empty => k s cap
  | Atom a =>
      match s with
      | [] => None
      | c :: s' => if atom_matches a c then k s' cap else None
      end
  | Seq r1 r2 => run r1 s cap (fun s1 cap1 => run r2 s1 cap1 k)
  | Alt r1 r2 =>
      match run r1 s cap k with
      | Some x => Some x
      | None => run r2 s cap k
      end
  | Plus a => plus_atom a s (fun s' => k s' cap)
  | Group r1 =>
      run r1 s cap
          (fun s' _ => k s' (Some (firstn (List.length s - List.length s') s)))
  end.
End Matcher.

(** The result array of a successful match: the matched text and the
    capture of group 1 ([undefined] when the group took no part). *)
Record result : Type := mkMatch {
  matched : Js.str;
  group1 : option Js.str
}.

Definition match_here (r : regex) (s : Js.str) : option result :=
  run r s None
      (fun s' cap => Some (mkMatch (firstn (List.length s - List.length s') s) cap)).

(** [String.prototype.match] with a regex without the [g] flag: the
    match at the leftmost start index, [null] when there is none. *)
Fixpoint exec (r : regex) (s : Js.str) : option result :=
  match match_here r s with
  | Some x => Some x
  | None =>
      match s with
      | [] => None
      | _ :: s' => exec r s'
      end
  end.

(** A run of pattern characters. *)
Fixpoint chars (p : Js.str) : regex :=
  match p with
  | [] => Empty
  | c :: p' => Seq (Atom (Chr c)) (chars p')
  end.

(** [/(?:title of|visit|go to|navigate to)\s+([^\s]+)/i] *)
Definition url_pattern : regex :=
  Seq (Alt (chars (Js.lit "title of"))
        (Alt (chars (Js.lit "visit"))
          (Alt (chars (Js.lit "go to"))
               (chars (Js.lit "navigate to")))))
      (Seq (Plus Space) (Group (Plus NotSpace))).

End Regex.

(* ===================================================================== *)
(** ** Effects: traces, completions and the external collaborators *)
(* ===================================================================== *)

(** A thrown [Error]: its [name] and [message]. *)
Record JsError : Type := mkError {
  err_name : Js.str;
  err_message : Js.str
}.

Definition Error_ (msg : Js.str) : JsError := mkError (Js.lit "Error") msg.
Definition TypeError (msg : Js.str) : JsError := mkError (Js.lit "TypeError") msg.

(** [Error.prototype.toString], as a template literal applies it. *)
Definition error_toString (e : JsError) : Js.str :=
  match err_name e, err_message e with
  | [], m => m
  | n, [] => n
  | n, m => n ++ Js.lit ": " ++ m
  end.

(** How a call into the runtime or into a tool ends. *)
Inductive Outcome (A : Type) : Type :=
| Returns (a : A)
| Throws (e : JsError).
Arguments Returns {A} a.
Arguments Throws {A} e.

(** The argument objects of a tool's [execute]: [{action: 'goto', url}]
    and [{action: 'title'}]. *)
Inductive ToolInput : Type :=
| Goto (url : Js.str)
| Title.

(** What a tool's [execute] resolves to ([undefined] fields are [None]). *)
Record ToolResult : Type := mkToolResult {
  tr_success : bool;
  tr_data : option Js.str;
  tr_error : option Js.str
}.

Record ToolDefinition : Type := mkToolDefinition {
  description : Js.str;
  code : option Js.str;
  input_schema_description : option Js.str;
  def_execute : ToolInput -> Outcome ToolResult;
  cleanup : option (Outcome unit)
}.

Record Tool : Type := mkTool {
  definition : ToolDefinition
}.

(** The [Map] returned by [initializeTools], in insertion order. *)
Definition ToolRegistry := list (Js.str * Tool).

Fixpoint registry_get (name : Js.str) (m : ToolRegistry) : option Tool :=
  match m with
  | [] => None
  | (k, t) :: m' => if Js.eqb k name then Some t else registry_get name m'
  end.

(** A tool as handed to [createSession] (the bound [execute] is not part
    of the record of the call). *)
Record ToolDescriptor : Type := mkToolDescriptor {
  td_name : Js.str;
  td_description : Js.str;
  td_code : Js.str
}.

Record Metadata : Type := mkMetadata {
  projectName : Js.str;
  environment : Js.str;
  workingDirectory : Js.str;
  md_engine : option Js.str
}.

(** The response of [sendMessage]: [content] and the names in [toolUse]. *)
Record Response : Type := mkResponse {
  content : Js.str;
  toolUse : option (list Js.str)
}.

(** An instance of the runtime's session manager. *)
Record SessionManager : Type := mkSessionManager {
  createSession : list ToolDescriptor -> Metadata -> Outcome Js.str;
  sendMessage : Js.str -> Js.str -> Js.str -> Outcome Response;
  deactivateSession : Js.str -> Outcome unit
}.

(** The runtime's [Agent] base class, as far as the command uses it: what
    the inherited [cleanup] does. *)
Record AgentClass : Type := mkAgentClass {
  agent_cleanup : Outcome unit
}.

(** The exports of a runtime module ([undefined] exports are [None]). *)
Record CortexModule : Type := mkCortexModule {
  exp_Agent : option AgentClass;
  exp_Session : option unit;
  exp_NativeSessionManager : option SessionManager;
  exp_Orchestrator : option unit
}.

Record LoaderModule : Type := mkLoaderModule {
  exp_initializeTools : option (Js.str -> Outcome ToolRegistry)
}.

(** Everything outside the command: what each dynamic import resolves to
    ([None]: the import rejects), the working directory and the two clock
    readings. *)
Record World : Type := mkWorld {
  import_local_cortex : option CortexModule;
  import_package_cortex : option CortexModule;
  import_local_loader : option LoaderModule;
  import_package_loader : option LoaderModule;
  cwd : Js.str;
  now_start : Z;
  now_end : Z
}.

Record Options : Type := mkOptions {
  opt_engine : option Js.str;
  opt_verbose : bool
}.

Inductive ModuleSource : Type :=
| LocalCortex        (* `${cortexPath}/dist/index.js` *)
| PackageCortex      (* '@acrobi/cortex' *)
| LocalLoader        (* `${cortexPath}/dist/tools/dynamic-tool-loader.js` *)
| PackageLoader.     (* '@acrobi/cortex/dist/tools/dynamic-tool-loader.js' *)

(** The observable events of a run, in program order. *)
Inductive Event : Type :=
| ConsoleLog (s : Js.str)
| ConsoleWarn (s : Js.str)
| ConsoleError (s : Js.str)
| ConsoleErrorStack (e : JsError)
| Import (m : ModuleSource)
| InitializeTools (dir : Js.str)
| NewNativeSessionManager
| CreateSession (tools : list ToolDescriptor) (meta : Metadata)
| SendMessage (sid task system : Js.str)
| DeactivateSession (sid : Js.str)
| NewSession (meta : Metadata)
| NewAgent (id descr : Js.str)
| AgentLog (msg : Js.str) (level : option Js.str)
| ToolExecute (input : ToolInput)
| ToolCleanup
| SetTimeout (ms : Z)
| AgentCleanup
| ProcessExit (code : Z).

(** How a piece of the command ends. *)
Inductive Completion (A : Type) : Type :=
| Normal (a : A)
| Thrown (e : JsError)
| Exited (code : Z).
Arguments Normal {A} a.
Arguments Thrown {A} e.
Arguments Exited {A} code.

Module Eff.

(** A computation: the events it performed and how it ended. *)
Definition t (A : Type) : Type := (list Event * Completion A)%type.

Definition ret {A} (a : A) : t A := ([], Normal a).

Definition bind {A B} (m : t A) (f : A -> t B) : t B :=
  match m with
  | (tr, Normal a) => let (tr', c) := f a in (tr ++ tr', c)
  | (tr, Thrown e) => (tr, Thrown e)
  | (tr, Exited n) => (tr, Exited n)
  end.

Definition emit (e : Event) : t unit := ([e], Normal tt).

Definition throw {A} (e : JsError) : t A := ([], Thrown e).

(** [process.exit(code)]: the process ends there; no handler and no
    [finally] block runs afterwards. *)
Definition process_exit {A} (code : Z) : t A := ([ProcessExit code], Exited code).

(** A call that leaves the command: the call is recorded, then it
    returns or throws. *)
Definition call {A} (e : Event) (o : Outcome A) : t A :=
  match o with
  | Returns a => ([e], Normal a)
  | Throws err => ([e], Thrown err)
  end.

(** How a call ends, without its event. *)
Definition of_outcome {A} (o : Outcome A) : t A :=
  match o with
  | Returns a => ([], Normal a)
  | Throws err => ([], Thrown err)
  end.

(** [try { m } catch (error) { h error }] *)
Definition try_catch {A} (m : t A) (h : JsError -> t A) : t A :=
  match m with
  | (tr, Thrown e) => let (tr', c) := h e in (tr ++ tr', c)
  | other => other
  end.

(** [try { m } finally { fin }] *)
Definition try_finally {A} (m : t A) (fin : t unit) : t A :=
  match m with
  | (tr, Exited n) => (tr, Exited n)
  | (tr, c) =>
      let (tr', c') := fin in
      (tr ++ tr',
       match c' with
       | Normal _ => c
       | Thrown e => Thrown e
       | Exited n => Exited n
       end)
  end.

Definition when (b : bool) (m : t unit) : t unit :=
  if b then m else ret tt.

(** [for (const x of l) { f x }] *)
Fixpoint for_each {A} (l : list A) (f : A -> t unit) : t unit :=
  match l with
  | [] => ret tt
  | x :: l' => bind (f x) (fun _ => for_each l' f)
  end.

Definition trace {A} (m : t A) : list Event := fst m.
Definition completion {A} (m : t A) : Completion A := snd m.

(** The events [tr], then the computation [m]. *)
Definition prepend {A} (tr : list Event) (m : t A) : t A :=
  (tr ++ trace m, completion m).

End Eff.

Declare Scope eff_scope.
Delimit Scope eff_scope with eff.
Notation "x <- c1 ;; c2" := (Eff.bind c1 (fun x => c2))
  (at level 61, c1 at next level, right associativity) : eff_scope.
Notation "c1 ;; c2" := (Eff.bind c1 (fun _ => c2))
  (at level 61, right associativity) : eff_scope.
Local Open Scope eff_scope.

(* ===================================================================== *)
(** ** The command *)
(* ===================================================================== *)

(** The glyphs of the console messages, as UTF-16 code units. *)
Module Glyph.
Definition rocket : Js.str := [55357; 56960]%N.
Definition wrench : Js.str := [55357; 56615]%N.
Definition cross : Js.str := [10060]%N.
Definition bulb : Js.str := [55357; 56481]%N.
Definition warning : Js.str := [9888; 65039]%N.
Definition hammer_wrench : Js.str := [55357; 57056; 65039]%N.
Definition arrows : Js.str := [55357; 56580]%N.
Definition robot : Js.str := [55358; 56598]%N.
Definition bolt : Js.str := [9889]%N.
Definition check_mark : Js.str := [9989]%N.
Definition chart : Js.str := [55357; 56522]%N.
Definition party : Js.str := [55356; 57225]%N.
End Glyph.

(** The result object both engines produce ([undefined] fields are
    [None]). *)
Record ExecutionResult : Type := mkResult {
  success : bool;
  message : option Js.str;
  title : option Js.str;
  response : option Js.str;
  error : option Js.str;
  note : option Js.str
}.

Definition failure (err : option Js.str) : ExecutionResult :=
  mkResult false None None None err None.

(** A value inside a template literal. *)
Definition show (v : option Js.str) : Js.str :=
  match v with
  | Some s => s
  | None => Js.lit "undefined"
  end.

(** Truthiness of a field that holds a string or [undefined]. *)
Definition truthy (v : option Js.str) : bool :=
  match v with
  | Some s => Js.truthy s
  | None => false
  end.

(** [a || b] on such fields. *)
Definition or_else (a b : option Js.str) : option Js.str :=
  if truthy a then a else b.

(** The capabilities [let Agent, Session, Orchestrator,
    NativeSessionManager] after the runtime resolution. *)
Record Capabilities : Type := mkCapabilities {
  Agent : option AgentClass;
  Session : option unit;
  Orchestrator : option unit;
  NativeSessionManager : option SessionManager
}.

(** [chalk] only styles its argument: the text is what is recorded. *)
Definition console_log (s : Js.str) : Eff.t unit := Eff.emit (ConsoleLog s).
Definition console_warn (s : Js.str) : Eff.t unit := Eff.emit (ConsoleWarn s).
Definition console_error (s : Js.str) : Eff.t unit := Eff.emit (ConsoleError s).

(** [this.log] of the agent base class. *)
Definition agent_log (msg : Js.str) : Eff.t unit := Eff.emit (AgentLog msg None).

Definition legacy : Js.str := Js.lit "legacy".
Definition native : Js.str := Js.lit "native".

(** [options.engine || 'legacy'] *)
Definition engine_of (options : Options) : Js.str :=
  match opt_engine options with
  | Some e => if Js.truthy e then e else legacy
  | None => legacy
  end.

(** [['legacy', 'native'].includes(engine)] *)
Definition valid_engine (engine : Js.str) : bool :=
  Js.eqb legacy engine || Js.eqb native engine.

Definition invalid_engine_message (engine : Js.str) : Js.str :=
  Js.lit "Error: Invalid engine " ++ Js.dquote ++ engine ++ Js.dquote
  ++ Js.lit ". Valid options are: legacy, native".

(** Lines 613-618: the engine check. *)
Definition validateEngine (options : Options) : Eff.t Js.str :=
  let engine := engine_of options in
  if negb (valid_engine engine) then
    console_error (invalid_engine_message engine) ;;
    Eff.process_exit 1
  else Eff.ret engine.

(** Lines 625-648: the runtime, from the colocated path or else from the
    package. *)
Definition resolveRuntime (w : World) : Eff.t Capabilities :=
  Eff.emit (Import LocalCortex) ;;
  match import_local_cortex w with
  | Some cortexModule =>
      Eff.ret (mkCapabilities (exp_Agent cortexModule)
                              (exp_Session cortexModule)
                              (exp_Orchestrator cortexModule)
                              (exp_NativeSessionManager cortexModule))
  | None =>
      Eff.emit (Import PackageCortex) ;;
      match import_package_cortex w with
      | Some cortexPackage =>
          Eff.ret (mkCapabilities (exp_Agent cortexPackage)
                                  (exp_Session cortexPackage)
                                  (exp_Orchestrator cortexPackage)
                                  None)
      | None =>
          console_error (Glyph.cross ++ Js.lit " Cortex runtime not found") ;;
          console_log (Glyph.bulb ++ Js.lit " Install it locally: npm install file:../cortex") ;;
          console_log (Glyph.bulb ++ Js.lit " Or install from npm: npm install @acrobi/cortex") ;;
          Eff.process_exit 1
      end
  end.

(** Lines 650-664: the tool loader, from the same two sources. *)
Definition resolveLoader (w : World)
  : Eff.t (option (Js.str -> Outcome ToolRegistry)) :=
  Eff.emit (Import LocalLoader) ;;
  match import_local_loader w with
  | Some m => Eff.ret (exp_initializeTools m)
  | None =>
      Eff.emit (Import PackageLoader) ;;
      match import_package_loader w with
      | Some m => Eff.ret (exp_initializeTools m)
      | None =>
          console_warn (Glyph.warning ++ Js.lit "  Dynamic tool loading not available") ;;
          Eff.ret None
      end
  end.

(** Lines 667-678: the registry, empty unless a loader was found. *)
Definition loadTools (w : World) (options : Options)
           (initializeTools : option (Js.str -> Outcome ToolRegistry))
  : Eff.t ToolRegistry :=
  match initializeTools with
  | Some init =>
      console_log (Glyph.hammer_wrench ++ Js.lit "  Loading dynamic tools...") ;;
      loadedTools <- Eff.call (InitializeTools (cwd w)) (init (cwd w)) ;;
      Eff.when (opt_verbose options)
        (console_log (Js.lit "Found " ++ Js.of_nat (List.length loadedTools) ++ Js.lit " tool(s):") ;;
         Eff.for_each loadedTools (fun entry =>
           console_log (Js.lit "  - " ++ fst entry ++ Js.lit ": "
                        ++ description (definition (snd entry))))) ;;
      Eff.ret loadedTools
  | None => Eff.ret []
  end.

(** [names.join(', ')] *)
Fixpoint join (sep : Js.str) (l : list Js.str) : Js.str :=
  match l with
  | [] => []
  | [x] => x
  | x :: l' => x ++ sep ++ join sep l'
  end.

(** [tool.definition.code || tool.definition.input_schema?.description || ''] *)
Definition descriptor_code (d : ToolDefinition) : Js.str :=
  match or_else (code d) (input_schema_description d) with
  | Some s => s
  | None => []
  end.

Definition descriptor (entry : Js.str * Tool) : ToolDescriptor :=
  mkToolDescriptor (fst entry)
                   (description (definition (snd entry)))
                   (descriptor_code (definition (snd entry))).

Definition system_directive : Js.str :=
  Js.lit "You are a local task execution assistant. Execute the given task to the best of your ability.".

Definition manager_not_available : Js.str :=
  Js.lit "NativeSessionManager not available - please ensure @acrobi/cortex is properly installed".

(** Lines 708-726: the message exchange and its [finally] block. *)
Definition exchange (mgr : SessionManager) (sessionId task : Js.str)
           (options : Options) : Eff.t ExecutionResult :=
  Eff.try_finally
    (response <- Eff.call (SendMessage sessionId task system_directive)
                          (sendMessage mgr sessionId task system_directive) ;;
     let result := mkResult true
                            (Some (Js.lit "Task completed with native engine"))
                            None
                            (Some (content response))
                            None None in
     Eff.when (opt_verbose options &&
               match toolUse response with
               | Some (_ :: _) => true
               | _ => false
               end)
       (console_log (Js.lit "Tools used: "
                     ++ join (Js.lit ", ")
                             (match toolUse response with Some l => l | None => [] end))) ;;
     Eff.ret result)
    (Eff.call (DeactivateSession sessionId) (deactivateSession mgr sessionId) ;;
     console_log (Js.lit "Native session deactivated")).

(** Lines 681-727: the native engine. *)
Definition nativeEngine (w : World) (caps : Capabilities)
           (loadedTools : ToolRegistry) (task : Js.str) (options : Options)
  : Eff.t ExecutionResult :=
  console_log (Glyph.rocket ++ Js.lit " Using Native Engine with Anthropic SDK") ;;
  match NativeSessionManager caps with
  | None => Eff.throw (Error_ manager_not_available)
  | Some nativeSessionManager =>
      Eff.emit NewNativeSessionManager ;;
      let tools := map descriptor loadedTools in
      let metadata := mkMetadata (Js.basename (cwd w)) (Js.lit "local")
                                 (cwd w) (Some native) in
      sessionId <- Eff.call (CreateSession tools metadata)
                            (createSession nativeSessionManager tools metadata) ;;
      console_log (Js.lit "Created native session: " ++ sessionId) ;;
      exchange nativeSessionManager sessionId task options
  end.

Definition is_browser_task (task : Js.str) : bool :=
  let taskLower := Js.toLowerCase task in
  Js.includes (Js.lit "playwright") taskLower
  || Js.includes (Js.lit "browser") taskLower
  || Js.includes (Js.lit "title of") taskLower.

(** [url.startsWith('http') ? url : `https://${url}`] *)
Definition goto_url (url : Js.str) : Js.str :=
  if Js.startsWith (Js.lit "http") url then url else Js.lit "https://" ++ url.

Definition could_not_extract : Js.str := Js.lit "Could not extract URL from task".
Definition tool_not_found : Js.str :=
  Js.lit "Playwright tool not found. Install it with: npm install @acrobi/tool-playwright".

Definition tool_execute (t : Tool) (input : ToolInput) : Eff.t ToolResult :=
  Eff.call (ToolExecute input) (def_execute (definition t) input).

(** Lines 750-793: the browser branch with the tool at hand. *)
Definition browse (playwrightTool : Tool) (task : Js.str) : Eff.t ExecutionResult :=
  agent_log (Js.lit "Using Playwright browser tool...") ;;
  match Regex.exec Regex.url_pattern task with
  | Some urlMatch =>
      match Regex.group1 urlMatch with
      | Some url =>
          agent_log (Js.lit "Navigating to: " ++ url) ;;
          navResult <- tool_execute playwrightTool (Goto (goto_url url)) ;;
          if tr_success navResult then
            agent_log (Js.lit "Getting page title...") ;;
            titleResult <- tool_execute playwrightTool Title ;;
            if tr_success titleResult then
              match cleanup (definition playwrightTool) with
              | Some hook => Eff.call ToolCleanup hook
              | None => Eff.ret tt
              end ;;
              Eff.ret (mkResult true
                         (Some (Js.lit "Page title: " ++ show (tr_data titleResult)))
                         (tr_data titleResult)
                         None None None)
            else Eff.ret (failure (tr_error titleResult))
          else Eff.ret (failure (tr_error navResult))
      | None =>
          (* [urlMatch[1]] is undefined: [url.startsWith] is a TypeError *)
          agent_log (Js.lit "Navigating to: undefined") ;;
          Eff.throw (TypeError (Js.lit "Cannot read properties of undefined (reading 'startsWith')"))
      end
  | None => Eff.ret (failure (Some could_not_extract))
  end.

(** Lines 741-813: [LocalExecutorAgent.run]. *)
Definition LocalExecutorAgent_run (loadedTools : ToolRegistry) (task : Js.str)
  : Eff.t ExecutionResult :=
  agent_log (Js.lit "Starting local task execution...") ;;
  Eff.try_catch
    (result <-
       (if is_browser_task task then
          match registry_get (Js.lit "PlaywrightBrowser") loadedTools with
          | Some playwrightTool => browse playwrightTool task
          | None => Eff.ret (failure (Some tool_not_found))
          end
        else
          agent_log (Js.lit "Executing task: " ++ task) ;;
          Eff.emit (SetTimeout 1000) ;;
          Eff.ret (mkResult true
                     (Some (Js.lit "Task " ++ Js.dquote ++ task ++ Js.dquote
                            ++ Js.lit " completed successfully (simulated execution)"))
                     None None None
                     (Some (Js.lit "This is a simulated result. For actual automation, install specific tool packages.")))) ;;
     agent_log (Js.lit "Task execution completed") ;;
     Eff.ret result)
    (fun error =>
       Eff.emit (AgentLog (Js.lit "Error in task execution: " ++ error_toString error)
                          (Some (Js.lit "error"))) ;;
       Eff.throw error).

(** Lines 729-822: the legacy engine.  The runtime's constructors and its
    [log] method are recorded as events that complete; a missing export
    makes [new Session] or the class definition a TypeError. *)
Definition legacyEngine (w : World) (caps : Capabilities)
           (loadedTools : ToolRegistry) (task : Js.str)
  : Eff.t ExecutionResult :=
  console_log (Glyph.arrows ++ Js.lit " Using Legacy Engine") ;;
  match Session caps with
  | None => Eff.throw (TypeError (Js.lit "Session is not a constructor"))
  | Some _ =>
      Eff.emit (NewSession (mkMetadata (Js.basename (cwd w)) (Js.lit "local")
                                       (cwd w) None)) ;;
      match Agent caps with
      | None =>
          Eff.throw (TypeError (Js.lit "Class extends value undefined is not a constructor or null"))
      | Some agentClass =>
          console_log (Glyph.robot ++ Js.lit " Creating local executor agent...") ;;
          Eff.emit (NewAgent (Js.lit "local-executor") (Js.lit "Local task execution agent")) ;;
          console_log (Glyph.bolt ++ Js.lit " Executing task...") ;;
          result <- LocalExecutorAgent_run loadedTools task ;;
          Eff.call AgentCleanup (agent_cleanup agentClass) ;;
          Eff.ret result
      end
  end.

(** Lines 823-847: the report. *)
Definition report (w : World) (result : ExecutionResult) : Eff.t unit :=
  let duration := (now_end w - now_start w)%Z in
  console_log (Js.newline ++ Glyph.check_mark ++ Js.lit " Task Execution Complete!") ;;
  console_log (Js.lit "Duration: " ++ Js.of_Z duration ++ Js.lit "ms") ;;
  (if success result then
     console_log (Glyph.chart ++ Js.lit " Result:") ;;
     Eff.when (truthy (title result))
       (console_log (Js.lit "   Title: " ++ Js.dquote ++ show (title result) ++ Js.dquote)) ;;
     Eff.when (truthy (message result))
       (console_log (Js.lit "   Message: " ++ show (message result))) ;;
     Eff.when (truthy (response result))
       (console_log (Js.lit "   Response: " ++ show (response result))) ;;
     Eff.when (truthy (note result))
       (console_log (Js.lit "   Note: " ++ show (note result)))
   else
     console_log (Glyph.cross ++ Js.lit " Error:") ;;
     console_log (Js.lit "   " ++ show (error result)) ;;
     Eff.process_exit 1) ;;
  console_log (Js.newline ++ Glyph.party ++ Js.lit " Task completed successfully!").

(** Lines 849-855: the top-level handler. *)
Definition top_level_handler (options : Options) (error : JsError) : Eff.t unit :=
  console_error (Js.newline ++ Js.lit "Error: " ++ err_message error) ;;
  Eff.when (opt_verbose options) (Eff.emit (ConsoleErrorStack error)) ;;
  Eff.process_exit 1.

(** Lines 679-822: the engine, by the validated option. *)
Definition runEngine (w : World) (engine : Js.str) (caps : Capabilities)
           (loadedTools : ToolRegistry) (task : Js.str) (options : Options)
  : Eff.t ExecutionResult :=
  if Js.eqb engine native
  then nativeEngine w caps loadedTools task options
  else legacyEngine w caps loadedTools task.

(** Lines 611-856: [runCommand]. *)
Definition runCommand (w : World) (task : Js.str) (options : Options) : Eff.t unit :=
  Eff.try_catch
    (engine <- validateEngine options ;;
     console_log (Glyph.rocket ++ Js.lit " Running Acrobi task: "
                  ++ Js.dquote ++ task ++ Js.dquote) ;;
     console_log (Glyph.wrench ++ Js.lit " Using engine: " ++ Js.toUpperCase engine) ;;
     caps <- resolveRuntime w ;;
     initializeTools <- resolveLoader w ;;
     console_log (Glyph.wrench ++ Js.lit " Initializing Cortex runtime...") ;;
     loadedTools <- loadTools w options initializeTools ;;
     result <- runEngine w engine caps loadedTools task options ;;
     report w result)
    (top_level_handler options).

(** The exit code of the process: that of [process.exit], or 0 when the
    command returns. *)
Definition exit_code (c : Completion unit) : Z :=
  match c with
  | Normal _ => 0
  | Thrown _ => 1
  | Exited n => n
  end.

(* ===================================================================== *)
(** ** The configuration commands: [loadConfig] and [connectCommand] *)
(* ===================================================================== *)

(** These commands work on the file system; their errors carry a [code].
    The same trace-and-completion reading of effects is used, over the
    events of these commands. *)
Module Io.

(** A rejected [fs] call or a thrown [SyntaxError]: [code] and [message]
    ([undefined] code is [None]). *)
Record error : Type := mkError {
  code : option Js.str;
  message : Js.str
}.

Inductive outcome (A : Type) : Type :=
| Returns (a : A)
| Throws (e : error).
Arguments Returns {A} a.
Arguments Throws {A} e.

(** What is written to a file: [JSON.stringify(config, null, 2)] of the
    object [{themeUrl, connectedAt, version}]. *)
Record theme_config : Type := mkThemeConfig {
  themeUrl : Js.str;
  connectedAt : Js.str;
  version : Js.str
}.

Inductive event : Type :=
| Log (s : Js.str)
| Err (s : Js.str)
| ReadFile (path encoding : Js.str)
| WriteFile (path : Js.str) (content : theme_config)
| Exit (code : Z).

Inductive completion (A : Type) : Type :=
| Normal (a : A)
| Thrown (e : error)
| Exited (code : Z).
Arguments Normal {A} a.
Arguments Thrown {A} e.
Arguments Exited {A} code.

Definition t (A : Type) : Type := (list event * completion A)%type.

Definition ret {A} (a : A) : t A := ([], Normal a).

Definition bind {A B} (m : t A) (f : A -> t B) : t B :=
  match m with
  | (tr, Normal a) => let (tr', c) := f a in (tr ++ tr', c)
  | (tr, Thrown e) => (tr, Thrown e)
  | (tr, Exited n) => (tr, Exited n)
  end.

Definition emit (e : event) : t unit := ([e], Normal tt).

Definition process_exit {A} (n : Z) : t A := ([Exit n], Exited n).

Definition of_outcome {A} (o : outcome A) : t A :=
  match o with
  | Returns a => ([], Normal a)
  | Throws e => ([], Thrown e)
  end.

Definition call {A} (e : event) (o : outcome A) : t A :=
  bind (emit e) (fun _ => of_outcome o).

Definition try_catch {A} (m : t A) (h : error -> t A) : t A :=
  match m with
  | (tr, Thrown e) => let (tr', c) := h e in (tr ++ tr', c)
  | other => other
  end.

Definition when (b : bool) (m : t unit) : t unit :=
  if b then m else ret tt.

Definition trace {A} (m : t A) : list event := fst m.
Definition result {A} (m : t A) : completion A := snd m.

End Io.

Notation "x <-- c1 ;;; c2" := (Io.bind c1 (fun x => c2))
  (at level 61, c1 at next level, right associativity).
Notation "c1 ;;; c2" := (Io.bind c1 (fun _ => c2))
  (at level 61, right associativity).

Section Config.

(** The JSON values other than [null]; [None] is [null]. *)
Variable Json : Type.

(** The file system and [JSON.parse], as [loadConfig] meets them. *)
Record ConfigWorld : Type := mkConfigWorld {
  config_cwd : Js.str;
  read_config : Io.outcome Js.str;
  json_parse : Js.str -> Io.outcome (option Json)
}.

(** [path.resolve(currentDir, name)] for an absolute, normalised
    directory. *)
Definition path_resolve (dir name : Js.str) : Js.str :=
  if Js.eqb dir (Js.lit "/") then dir ++ name else dir ++ Js.lit "/" ++ name.

Definition ENOENT : Js.str := Js.lit "ENOENT".

Definition is_ENOENT (e : Io.error) : bool :=
  match Io.code e with
  | Some c => Js.eqb c ENOENT
  | None => false
  end.

(** Lines 63-97: [loadConfig(quiet = false)]. *)
Definition loadConfig (fw : ConfigWorld) (quiet : bool) : Io.t (option Json) :=
  let currentDir := config_cwd fw in
  let configPath := path_resolve currentDir (Js.lit "acrobi.json") in
  Io.when (negb quiet)
    (Io.emit (Io.Log (Js.lit "Looking for acrobi.json in: " ++ currentDir))) ;;;
  Io.try_catch
    (configContent <-- Io.call (Io.ReadFile configPath (Js.lit "utf-8")) (read_config fw) ;;;
     config <-- Io.of_outcome (json_parse fw configContent) ;;;
     Io.when (negb quiet)
       (Io.emit (Io.Log (Glyph.check_mark ++ Js.lit " Found configuration at: "
                         ++ configPath))) ;;;
     Io.ret config)
    (fun error =>
       if is_ENOENT error && negb quiet then
         Io.emit (Io.Err (Js.lit "Configuration file 'acrobi.json' not found in current directory: "
                          ++ currentDir)) ;;;
         Io.emit (Io.Err (Js.lit "Please run 'acrobi init' to create one in this directory.")) ;;;
         Io.process_exit 1
       else if is_ENOENT error then
         Io.ret None
       else
         (if negb quiet then
            Io.emit (Io.Err (Js.lit "Error reading configuration file: "
                             ++ Io.message error)) ;;;
            Io.process_exit 1
          else Io.ret tt) ;;;
         Io.ret None).

End Config.

(** What [connectCommand] meets: whether [new URL(url)] accepts the
    address, the clock, and how [fs.writeFile] ends. *)
Record ConnectWorld : Type := mkConnectWorld {
  url_accepted : Js.str -> bool;
  now_iso : Js.str;
  write_config : Io.outcome unit
}.

Definition link_glyph : Js.str := [55357; 56599]%N.

(** Lines 570-609: [connectCommand(options)], [url] being [options.url]. *)
Definition connectCommand (cw : ConnectWorld) (url : option Js.str) : Io.t unit :=
  Io.try_catch
    ((if negb (truthy url) then
        Io.emit (Io.Err (Js.lit "Error: URL is required")) ;;;
        Io.emit (Io.Err (Js.lit "Usage: acrobi connect --url=<theme-server-url>")) ;;;
        Io.emit (Io.Err (Js.lit "Example: acrobi connect --url=http://localhost:3000/api/themes/default.css")) ;;;
        Io.process_exit 1
      else Io.ret tt) ;;;
     Io.emit (Io.Log (link_glyph ++ Js.lit " Connecting to Acrobi Theme Server...")) ;;;
     (if url_accepted cw (show url) then Io.ret tt
      else
        Io.emit (Io.Err (Js.lit "Error: Invalid URL format")) ;;;
        Io.process_exit 1) ;;;
     Io.emit (Io.Log (Js.newline ++ Js.lit "1. Creating configuration file...")) ;;;
     let config := Io.mkThemeConfig (show url) (now_iso cw) (Js.lit "1.0.0") in
     Io.call (Io.WriteFile (Js.lit "acrobi.config.json") config) (write_config cw) ;;;
     Io.emit (Io.Log (Glyph.check_mark ++ Js.lit " Created acrobi.config.json")) ;;;
     Io.emit (Io.Log (Js.newline ++ Glyph.party
                      ++ Js.lit " Successfully connected to Acrobi Theme Server!")) ;;;
     Io.emit (Io.Log (Js.newline ++ Js.lit "Configuration:")) ;;;
     Io.emit (Io.Log (Js.lit "- Theme URL: " ++ show url)) ;;;
     Io.emit (Io.Log (Js.lit "- Config file: acrobi.config.json")) ;;;
     Io.emit (Io.Log (Js.newline ++ Js.lit "Next steps:")) ;;;
     Io.emit (Io.Log (Js.lit "1. Wrap your app in the ThemeProvider component")) ;;;
     Io.emit (Io.Log (Js.lit "2. The theme URL will be automatically loaded from acrobi.config.json")))
    (fun error =>
       Io.emit (Io.Err (Js.newline ++ Js.lit "Error: " ++ Io.message error)) ;;;
       Io.process_exit 1).

(* ===================================================================== *)
(** ** Sample collaborators *)
(* ===================================================================== *)

Module Sample.

Definition dir : Js.str := Js.lit "/home/dev/shop".

Definition agent : AgentClass := mkAgentClass (Returns tt).

(** A session manager whose calls all succeed. *)
Definition manager : SessionManager :=
  mkSessionManager
    (fun _ _ => Returns (Js.lit "session-1"))
    (fun _ _ _ => Returns (mkResponse (Js.lit "done") None))
    (fun _ => Returns tt).

(** A session manager whose [sendMessage] throws. *)
Definition failing_manager : SessionManager :=
  mkSessionManager
    (fun _ _ => Returns (Js.lit "session-1"))
    (fun _ _ _ => Throws (Error_ (Js.lit "network down")))
    (fun _ => Returns tt).

(** A runtime module with all four exports. *)
Definition cortex : CortexModule :=
  mkCortexModule (Some agent) (Some tt) (Some manager) (Some tt).

(** A browser tool that always succeeds and reports a fixed title. *)
Definition browser : Tool :=
  mkTool (mkToolDefinition
            (Js.lit "Browser automation") None None
            (fun input =>
               match input with
               | Goto _ => Returns (mkToolResult true None None)
               | Title => Returns (mkToolResult true (Some (Js.lit "Example Domain")) None)
               end)
            (Some (Returns tt))).

(** A browser tool whose navigation fails without an error value. *)
Definition silent_browser : Tool :=
  mkTool (mkToolDefinition
            (Js.lit "Browser automation") None None
            (fun _ => Returns (mkToolResult false None None))
            None).

(** A browser tool whose navigation throws. *)
Definition crashing_browser : Tool :=
  mkTool (mkToolDefinition
            (Js.lit "Browser automation") None None
            (fun _ => Throws (Error_ (Js.lit "browser crashed")))
            None).

Definition registry (t : Tool) : ToolRegistry := [(Js.lit "PlaywrightBrowser", t)].

(** A loader that finds the given tool. *)
Definition loader (t : Tool) : LoaderModule :=
  mkLoaderModule (Some (fun _ => Returns (registry t))).

(** A loader whose [initializeTools] throws. *)
Definition broken_loader : LoaderModule :=
  mkLoaderModule (Some (fun _ => Throws (Error_ (Js.lit "cannot scan tools")))).

(** The runtime and the loader are colocated with the CLI. *)
Definition local_world (l : option LoaderModule) : World :=
  mkWorld (Some cortex) None l None dir 1000 2500.

(** Only the global package resolves. *)
Definition package_world (m : CortexModule) : World :=
  mkWorld None (Some m) None None dir 1000 2500.

(** Nothing resolves. *)
Definition bare_world : World :=
  mkWorld None None None None dir 1000 2500.

Definition opts (engine : string) : Options :=
  mkOptions (Some (Js.lit engine)) false.

End Sample.

(* ===================================================================== *)
(** ** Observations on runs, and the specification's wording *)
(* ===================================================================== *)

(** The two lines every accepted run starts with. *)
Definition banner (task engine : Js.str) : list Event :=
  [ConsoleLog (Glyph.rocket ++ Js.lit " Running Acrobi task: "
               ++ Js.dquote ++ task ++ Js.dquote);
   ConsoleLog (Glyph.wrench ++ Js.lit " Using engine: " ++ Js.toUpperCase engine)].

Definition is_import (e : Event) : bool :=
  match e with Import _ => true | _ => false end.

Definition is_create_session (e : Event) : bool :=
  match e with CreateSession _ _ => true | _ => false end.

Definition is_warning (e : Event) : bool :=
  match e with ConsoleWarn _ => true | _ => false end.

Definition loader_warning : Js.str :=
  Glyph.warning ++ Js.lit "  Dynamic tool loading not available".

(** [only p m]: every event of [m] satisfies [p]. *)
Definition only {A} (p : Event -> bool) (m : Eff.t A) : Prop :=
  forallb p (Eff.trace m) = true.

(** The events of the stages before the engine. *)
Definition is_setup (e : Event) : bool :=
  match e with
  | ConsoleLog _ | ConsoleWarn _ | Import _ | InitializeTools _ => true
  | _ => false
  end.

(** The events up to the engine, for a run whose setup stages returned. *)
Definition setup_trace (task engine : Js.str) (tr1 tr2 tr3 : list Event) : list Event :=
  banner task engine ++ tr1 ++ tr2
  ++ [ConsoleLog (Glyph.wrench ++ Js.lit " Initializing Cortex runtime...")] ++ tr3.

Definition is_deactivate (e : Event) : bool :=
  match e with DeactivateSession _ => true | _ => false end.

(** What the top-level handler does: the error report and the exit. *)
Definition is_handler (e : Event) : bool :=
  match e with
  | ConsoleError _ | ConsoleErrorStack _ | ProcessExit _ => true
  | _ => false
  end.

Definition not_deactivate (e : Event) : bool := negb (is_deactivate e).

Definition session_metadata (w : World) : Metadata :=
  mkMetadata (Js.basename (cwd w)) (Js.lit "local") (cwd w) (Some native).

(** The events of the exchange between [sendMessage] and the
    deactivation, and those after it. *)
Definition exchange_mid (mgr : SessionManager) (sid task : Js.str) (options : Options)
  : list Event :=
  match sendMessage mgr sid task system_directive with
  | Returns resp =>
      match toolUse resp with
      | Some (x :: l) =>
          if opt_verbose options
          then [ConsoleLog (Js.lit "Tools used: " ++ join (Js.lit ", ") (x :: l))]
          else []
      | _ => []
      end
  | Throws _ => []
  end.

Definition exchange_post (mgr : SessionManager) (sid : Js.str) : list Event :=
  match deactivateSession mgr sid with
  | Returns _ => [ConsoleLog (Js.lit "Native session deactivated")]
  | Throws _ => []
  end.

Definition exchange_completion (mgr : SessionManager) (sid task : Js.str)
  : Completion ExecutionResult :=
  match deactivateSession mgr sid, sendMessage mgr sid task system_directive with
  | Throws e', _ => Thrown e'
  | Returns _, Throws e => Thrown e
  | Returns _, Returns resp =>
      Normal (mkResult true (Some (Js.lit "Task completed with native engine"))
                       None (Some (content resp)) None None)
  end.

Definition is_agent_cleanup (e : Event) : bool :=
  match e with AgentCleanup => true | _ => false end.

Definition not_agent_cleanup (e : Event) : bool := negb (is_agent_cleanup e).

(** The events of the legacy engine before the run step. *)
Definition legacy_start (w : World) : list Event :=
  [ConsoleLog (Glyph.arrows ++ Js.lit " Using Legacy Engine");
   NewSession (mkMetadata (Js.basename (cwd w)) (Js.lit "local") (cwd w) None);
   ConsoleLog (Glyph.robot ++ Js.lit " Creating local executor agent...");
   NewAgent (Js.lit "local-executor") (Js.lit "Local task execution agent");
   ConsoleLog (Glyph.bolt ++ Js.lit " Executing task...")].

(** The events of the run step up to and including the [goto] call. *)
Definition browse_start (url : Js.str) : list Event :=
  [AgentLog (Js.lit "Starting local task execution...") None;
   AgentLog (Js.lit "Using Playwright browser tool...") None;
   AgentLog (Js.lit "Navigating to: " ++ url) None;
   ToolExecute (Goto (goto_url url))].

Definition run_completed : Event :=
  AgentLog (Js.lit "Task execution completed") None.

(** The target extraction as the specification words it, to be compared
    with the regular expression of the source. *)
Module Spec.

(** The phrases that introduce a target. *)
Definition phrases : list Js.str :=
[Js.lit "title of"; Js.lit "visit"; Js.lit "go to"; Js.lit "navigate to"].

(** [after_phrase p s]: the lower-case phrase [p] occurs at the start of
  [s], whatever the case of the letters there; what follows it. *)
Fixpoint after_phrase (p s : Js.str) : option Js.str :=
match p with
| [] => Some s
| x :: p' =>
    match s with
    | [] => None
    | y :: s' => if N.eqb (Js.lower_unit y) x then after_phrase p' s' else None
    end
end.

Fixpoint drop_spaces (s : Js.str) : Js.str :=
match s with
| [] => []
| c :: s' => if Js.is_space c then drop_spaces s' else s
end.

(** The maximal run of non-whitespace characters at the start of [s]. *)
Fixpoint take_word (s : Js.str) : Js.str :=
match s with
| [] => []
| c :: s' => if Js.is_space c then [] else c :: take_word s'
end.

(** Whitespace, then a non-empty word: the word. *)
Definition word_after_space (s : Js.str) : option Js.str :=
match s with
| [] => None
| c :: _ =>
    if Js.is_space c then
      match take_word (drop_spaces s) with
      | [] => None
      | w => Some w
      end
    else None
end.

(** One of the phrases, whitespace and a word start [s]: the word. *)
Fixpoint target_of (ps : list Js.str) (s : Js.str) : option Js.str :=
match ps with
| [] => None
| p :: ps' =>
    match match after_phrase p s with
          | Some rest => word_after_space rest
          | None => None
          end with
    | Some t => Some t
    | None => target_of ps' s
    end
end.

(** The word of the leftmost such occurrence in the task. *)
Fixpoint extract_target (s : Js.str) : option Js.str :=
match target_of phrases s with
| Some t => Some t
| None =>
    match s with
    | [] => None
    | _ :: s' => extract_target s'
    end
end.

(** A reference carries a URL scheme when it starts with a scheme name
  and a colon: a letter, then letters, digits, [+], [-] or [.]. *)
Definition is_alpha (c : N) : bool :=
((65 <=? c) && (c <=? 90) || (97 <=? c) && (c <=? 122))%N.

Definition is_scheme_char (c : N) : bool :=
(is_alpha c || (48 <=? c) && (c <=? 57) || (c =? 43) || (c =? 45) || (c =? 46))%N.

Fixpoint scheme_then_colon (s : Js.str) : bool :=
match s with
| [] => false
| c :: s' =>
    if N.eqb c 58 then true
    else if is_scheme_char c then scheme_then_colon s' else false
end.

Definition has_scheme (s : Js.str) : bool :=
match s with
| [] => false
| c :: s' => is_alpha c && scheme_then_colon s'
end.

End Spec.

Definition is_goto (e : Event) : bool :=
  match e with ToolExecute (Goto _) => true | _ => false end.

(** What is left of [s] after its first word. *)
Definition after_word (s : Js.str) : Js.str := skipn (List.length (Spec.take_word s)) s.

Definition pattern_tail : Regex.regex :=
  Regex.Seq (Regex.Plus Regex.Space) (Regex.Group (Regex.Plus Regex.NotSpace)).

Definition populated (v : option Js.str) : bool :=
  match v with Some _ => true | None => false end.

(** The invariant of the data model: a failure carries an error, a
    success carries a message, a title or a response. *)
Definition normalized (r : ExecutionResult) : bool :=
  if success r
  then populated (message r) || populated (title r) || populated (response r)
  else populated (error r).

(** Every failed result of the tool's [execute] carries an error. *)
Definition reports_errors (t : Tool) : Prop :=
  forall input res,
    def_execute (definition t) input = Returns res ->
    tr_success res = false ->
    populated (tr_error res) = true.

(** [returns P m]: when [m] completes normally, its value satisfies [P]. *)
Definition returns {A} (P : A -> Prop) (m : Eff.t A) : Prop :=
  forall tr a, m = (tr, Normal a) -> P a.

(** [exits_with q m]: when [m] ends the process, the exit code satisfies
    [q]. *)
Definition exits_with {A} (q : Z -> Prop) (m : Eff.t A) : Prop :=
  forall n, Eff.completion m = Exited n -> q n.

(** The exit code of every failure. *)
Definition code_1 (n : Z) : Prop := n = 1%Z.

(** Events of the command itself: console output, imports, tool
    discovery and the exit. *)
Definition is_common (e : Event) : bool :=
  match e with
  | ConsoleLog _ | ConsoleWarn _ | ConsoleError _ | ConsoleErrorStack _
  | Import _ | InitializeTools _ | ProcessExit _ => true
  | _ => false
  end.

(** Calls on the session manager. *)
Definition is_native_event (e : Event) : bool :=
  match e with
  | NewNativeSessionManager | CreateSession _ _ | SendMessage _ _ _
  | DeactivateSession _ => true
  | _ => false
  end.

(** Calls on the legacy session, the agent and the tools. *)
Definition is_legacy_event (e : Event) : bool :=
  match e with
  | NewSession _ | NewAgent _ _ | AgentLog _ _ | ToolExecute _ | ToolCleanup
  | SetTimeout _ | AgentCleanup => true
  | _ => false
  end.

Definition common_or_native (e : Event) : bool := is_common e || is_native_event e.
Definition common_or_legacy (e : Event) : bool := is_common e || is_legacy_event e.

Definition not_import (e : Event) : bool := negb (is_import e).

(** The import attempts for the runtime and for the loader, as the two
    fallbacks order them. *)
Definition cortex_imports (w : World) : list Event :=
  match import_local_cortex w with
  | Some _ => [Import LocalCortex]
  | None => [Import LocalCortex; Import PackageCortex]
  end.

Definition loader_imports (w : World) : list Event :=
  match import_local_loader w with
  | Some _ => [Import LocalLoader]
  | None => [Import LocalLoader; Import PackageLoader]
  end.

Definition runtime_resolves (w : World) : bool :=
  match import_local_cortex w, import_package_cortex w with
  | None, None => false
  | _, _ => true
  end.

(** What the top-level handler prints and does for an error. *)
Definition handler_trace (options : Options) (e : JsError) : list Event :=
  [ConsoleError (Js.newline ++ Js.lit "Error: " ++ err_message e)]
  ++ (if opt_verbose options then [ConsoleErrorStack e] else [])
  ++ [ProcessExit 1].

(** The events of the native engine up to the creation of the session. *)
Definition native_start (w : World) (tools : ToolRegistry) : list Event :=
  [ConsoleLog (Glyph.rocket ++ Js.lit " Using Native Engine with Anthropic SDK");
   NewNativeSessionManager;
   CreateSession (map descriptor tools) (session_metadata w)].

Definition is_exchange_event (e : Event) : bool :=
  match e with
  | SendMessage _ _ _ | DeactivateSession _ => true
  | _ => false
  end.

(** More sample collaborators, for the failure paths. *)
Module Scenario.

(** A session manager that cannot create a session. *)
Definition refusing_manager : SessionManager :=
  mkSessionManager (fun _ _ => Throws (Error_ (Js.lit "quota exceeded")))
                   (fun _ _ _ => Returns (mkResponse (Js.lit "done") None))
                   (fun _ => Returns tt).

(** A session manager whose deactivation fails. *)
Definition stale_manager : SessionManager :=
  mkSessionManager (fun _ _ => Returns (Js.lit "session-1"))
                   (fun _ _ _ => Returns (mkResponse (Js.lit "done") None))
                   (fun _ => Throws (Error_ (Js.lit "already closed"))).

(** An agent base class whose cleanup fails. *)
Definition failing_agent : AgentClass :=
  mkAgentClass (Throws (Error_ (Js.lit "cleanup failed"))).

Definition cortex_with (a : AgentClass) (mgr : SessionManager) : CortexModule :=
  mkCortexModule (Some a) (Some tt) (Some mgr) (Some tt).

Definition caps_with (a : AgentClass) (mgr : SessionManager) : Capabilities :=
  mkCapabilities (Some a) (Some tt) (Some tt) (Some mgr).

(** The runtime is colocated; there is no tool loader. *)
Definition world_with (a : AgentClass) (mgr : SessionManager) : World :=
  mkWorld (Some (cortex_with a mgr)) None None None Sample.dir 1000 2500.

(** The events of the loader search in such a world. *)
Definition no_loader : list Event :=
  [Import LocalLoader; Import PackageLoader; ConsoleWarn loader_warning].

End Scenario.

Definition not_space (c : N) : bool := negb (Js.is_space c).

(** [ends_word post]: nothing, or whitespace, follows. *)
Definition ends_word (post : Js.str) : Prop :=
  post = [] \/ exists c post', post = c :: post' /\ Js.is_space c = true.

(** The two lines every report starts with. *)
Definition report_header (w : World) : list Event :=
  [ConsoleLog (Js.newline ++ Glyph.check_mark ++ Js.lit " Task Execution Complete!");
   ConsoleLog (Js.lit "Duration: " ++ Js.of_Z (now_end w - now_start w) ++ Js.lit "ms")].

Definition simulated_message (task : Js.str) : Js.str :=
  Js.lit "Task " ++ Js.dquote ++ task ++ Js.dquote
  ++ Js.lit " completed successfully (simulated execution)".

Definition simulated_note : Js.str :=
  Js.lit "This is a simulated result. For actual automation, install specific tool packages.".

(** The line of the verbose listing for one registry entry. *)
Definition tool_line (entry : Js.str * Tool) : Event :=
  ConsoleLog (Js.lit "  - " ++ fst entry ++ Js.lit ": "
              ++ description (definition (snd entry))).

Definition is_stack (e : Event) : bool :=
  match e with ConsoleErrorStack _ => true | _ => false end.

Definition not_stack (e : Event) : bool := negb (is_stack e).

Definition not_warning (e : Event) : bool := negb (is_warning e).

(** Neither loader module can be imported. *)
Definition no_loader_module (w : World) : bool :=
  match import_local_loader w, import_package_loader w with
  | None, None => true
  | _, _ => false
  end.

Definition is_write (e : Io.event) : bool :=
  match e with Io.WriteFile _ _ => true | _ => false end.

(** Sample worlds for the configuration commands: JSON values are
    numbers here. *)
Module ConfigSample.

Definition missing : ConfigWorld Z :=
  mkConfigWorld (Js.lit "/home/dev/shop")
                (Io.Throws (Io.mkError (Some (Js.lit "ENOENT")) (Js.lit "no such file")))
                (fun _ => Io.Returns (Some 1%Z)).

Definition present : ConfigWorld Z :=
  mkConfigWorld (Js.lit "/home/dev/shop")
                (Io.Returns (Js.lit "7"))
                (fun _ => Io.Returns (Some 7%Z)).

Definition accepting : ConnectWorld :=
  mkConnectWorld (fun _ => true) (Js.lit "2025-01-01T00:00:00.000Z") (Io.Returns tt).

End ConfigSample.


(* ===================================================================== *)
(** ** Basic facts *)
(* ===================================================================== *)

Lemma eqb_refl (a : Js.str) : Js.eqb a a = true.
Proof.
  induction a as [|x a IH]; simpl; [reflexivity|].
  now rewrite N.eqb_refl, IH.
Qed.

Lemma eqb_eq (a b : Js.str) : Js.eqb a b = true <-> a = b.
Proof.
  split.
  - revert b; induction a as [|x a IH]; intros [|y b]; simpl; try discriminate; auto.
    intros H. apply andb_true_iff in H as [Hx Ha].
    apply N.eqb_eq in Hx. apply IH in Ha. now subst.
  - intros ->. apply eqb_refl.
Qed.

Section EffLaws.
Context {A B : Type}.

Lemma bind_normal (tr : list Event) (a : A) (f : A -> Eff.t B) :
  Eff.bind (tr, Normal a) f = Eff.prepend tr (f a).
Proof. unfold Eff.bind, Eff.prepend. now destruct (f a). Qed.

Lemma bind_thrown (tr : list Event) (e : JsError) (f : A -> Eff.t B) :
  Eff.bind (tr, Thrown e) f = (tr, Thrown e).
Proof. reflexivity. Qed.

Lemma bind_exited (tr : list Event) (n : Z) (f : A -> Eff.t B) :
  Eff.bind (tr, Exited n) f = (tr, Exited n).
Proof. reflexivity. Qed.

Lemma bind_prepend (tr : list Event) (m : Eff.t A) (f : A -> Eff.t B) :
  Eff.bind (Eff.prepend tr m) f = Eff.prepend tr (Eff.bind m f).
Proof.
  destruct m as [t [a|e|n]]; unfold Eff.prepend, Eff.bind; cbn; try reflexivity.
  destruct (f a); cbn. now rewrite app_assoc.
Qed.

Lemma prepend_prepend (t1 t2 : list Event) (m : Eff.t A) :
  Eff.prepend t1 (Eff.prepend t2 m) = Eff.prepend (t1 ++ t2) m.
Proof. unfold Eff.prepend; cbn. now rewrite app_assoc. Qed.

Lemma prepend_nil (m : Eff.t A) : Eff.prepend [] m = m.
Proof. now destruct m. Qed.

Lemma prepend_pair (t1 t2 : list Event) (c : Completion A) :
  Eff.prepend t1 (t2, c) = (t1 ++ t2, c).
Proof. reflexivity. Qed.

Lemma try_catch_prepend (tr : list Event) (m : Eff.t A) (h : JsError -> Eff.t A) :
  Eff.try_catch (Eff.prepend tr m) h = Eff.prepend tr (Eff.try_catch m h).
Proof.
  destruct m as [t [a|e|n]]; unfold Eff.prepend, Eff.try_catch; cbn; try reflexivity.
  destruct (h e); cbn. now rewrite app_assoc.
Qed.

Lemma call_prepend (e : Event) (o : Outcome A) :
  Eff.call e o = Eff.prepend [e] (Eff.of_outcome o).
Proof. now destruct o. Qed.

Lemma trace_prepend (tr : list Event) (m : Eff.t A) :
  Eff.trace (Eff.prepend tr m) = tr ++ Eff.trace m.
Proof. reflexivity. Qed.

Lemma completion_prepend (tr : list Event) (m : Eff.t A) :
  Eff.completion (Eff.prepend tr m) = Eff.completion m.
Proof. reflexivity. Qed.
End EffLaws.

Lemma engine_of_truthy (options : Options) (e : Js.str) :
  opt_engine options = Some e -> e <> [] -> engine_of options = e.
Proof.
  unfold engine_of. intros -> He. destruct e; [contradiction|reflexivity].
Qed.

Lemma valid_engine_cases (e : Js.str) :
  valid_engine e = true <-> e = legacy \/ e = native.
Proof.
  unfold valid_engine. rewrite orb_true_iff, !eqb_eq. intuition congruence.
Qed.

(* ===================================================================== *)
(** ** The engine check (C2) *)
(* ===================================================================== *)

(** C2, as stated, fails at the empty string: it is outside
    {legacy, native}, yet the run is not rejected; it resolves the runtime
    and runs the legacy engine to exit code 0. *)
Lemma C2_empty_engine_runs_legacy :
  let options := mkOptions (Some (Js.lit "")) false in
  let run := runCommand (Sample.local_world None) (Js.lit "say hello") options in
  valid_engine (Js.lit "") = false
  /\ In (Import LocalCortex) (Eff.trace run)
  /\ In (ConsoleLog (Glyph.arrows ++ Js.lit " Using Legacy Engine")) (Eff.trace run)
  /\ exit_code (Eff.completion run) = 0%Z.
Proof.
  vm_compute. repeat split; auto 20.
Qed.

(** C2 (amended): a non-empty engine value outside {legacy, native} ends
    the run with exit code 1 after a single report that lists the valid
    options, and nothing else happens: no import, no session, no tool
    call.  An absent or empty engine value selects legacy. *)
Theorem C2_invalid_engine_rejected_first (w : World) (task : Js.str) (options : Options) :
  (forall e, opt_engine options = Some e -> e <> [] -> valid_engine e = false ->
     runCommand w task options
     = ([ConsoleError (Js.lit "Error: Invalid engine " ++ Js.dquote ++ e ++ Js.dquote
                       ++ Js.lit ". Valid options are: legacy, native");
         ProcessExit 1], Exited 1))
  /\ (truthy (opt_engine options) = false -> engine_of options = legacy).
Proof.
  split.
  - intros e He Hne Hv.
    unfold runCommand, validateEngine.
    rewrite (engine_of_truthy options He Hne), Hv. reflexivity.
  - unfold engine_of, truthy. destruct (opt_engine options) as [[|c e]|]; simpl; congruence.
Qed.

Lemma C2_invalid_engine_rejected_first_witness :
  runCommand Sample.bare_world (Js.lit "say hello") (Sample.opts "turbo")
  = ([ConsoleError (Js.lit "Error: Invalid engine " ++ Js.dquote ++ Js.lit "turbo" ++ Js.dquote
                    ++ Js.lit ". Valid options are: legacy, native");
      ProcessExit 1], Exited 1)
  /\ engine_of (mkOptions None true) = legacy.
Proof.
  split.
  - apply (proj1 (C2_invalid_engine_rejected_first Sample.bare_world (Js.lit "say hello")
                    (Sample.opts "turbo")) (Js.lit "turbo")).
    + reflexivity.
    + discriminate.
    + reflexivity.
  - apply (proj2 (C2_invalid_engine_rejected_first Sample.bare_world [] (mkOptions None true))).
    reflexivity.
Defined.

(* ===================================================================== *)
(** ** Runtime resolution (C9, C3) *)
(* ===================================================================== *)

Lemma validateEngine_valid (options : Options) :
  valid_engine (engine_of options) = true ->
  validateEngine options = ([], Normal (engine_of options)).
Proof.
  intros H. unfold validateEngine. now rewrite H.
Qed.

(** C9: when neither the colocated runtime nor the package resolves, the
    run of a valid engine is exactly: the banner, one import attempt per
    source in order, the runtime-not-found report with the two
    installation hints, and [process.exit(1)]. *)
Theorem C9_runtime_unavailable_is_fatal (w : World) (task : Js.str) (options : Options) :
  valid_engine (engine_of options) = true ->
  import_local_cortex w = None ->
  import_package_cortex w = None ->
  let run := runCommand w task options in
  run = (banner task (engine_of options)
         ++ [Import LocalCortex; Import PackageCortex;
             ConsoleError (Glyph.cross ++ Js.lit " Cortex runtime not found");
             ConsoleLog (Glyph.bulb ++ Js.lit " Install it locally: npm install file:../cortex");
             ConsoleLog (Glyph.bulb ++ Js.lit " Or install from npm: npm install @acrobi/cortex");
             ProcessExit 1],
         Exited 1)
  /\ exit_code (Eff.completion run) <> 0%Z
  /\ List.length (filter is_import (Eff.trace run)) = 2.
Proof.
  intros Hv Hl Hp. cbv zeta.
  assert (E : runCommand w task options
              = (banner task (engine_of options)
                 ++ [Import LocalCortex; Import PackageCortex;
                     ConsoleError (Glyph.cross ++ Js.lit " Cortex runtime not found");
                     ConsoleLog (Glyph.bulb ++ Js.lit " Install it locally: npm install file:../cortex");
                     ConsoleLog (Glyph.bulb ++ Js.lit " Or install from npm: npm install @acrobi/cortex");
                     ProcessExit 1],
                 Exited 1)).
  { unfold runCommand. rewrite (validateEngine_valid _ Hv).
    unfold resolveRuntime. rewrite Hl, Hp. reflexivity. }
  rewrite E. split; [reflexivity|]. split; [discriminate|reflexivity].
Qed.

Lemma C9_runtime_unavailable_is_fatal_witness :
  Eff.completion (runCommand Sample.bare_world (Js.lit "say hello") (Sample.opts "native"))
  = Exited 1.
Proof.
  pose proof (C9_runtime_unavailable_is_fatal Sample.bare_world (Js.lit "say hello")
                (Sample.opts "native") eq_refl eq_refl eq_refl) as H.
  cbv zeta in H. destruct H as [H _]. rewrite H. reflexivity.
Defined.

(** C3: does not hold on the code.  Whatever the global
    package exports, session manager included, a native run that resolved
    the runtime through the package stops at the manager-not-available
    error: the fallback branch never binds [NativeSessionManager]. *)
Theorem C3_package_runtime_has_no_manager (m : CortexModule) (task : Js.str) :
  let w := Sample.package_world m in
  let run := runCommand w task (Sample.opts "native") in
  Eff.completion (resolveRuntime w)
  = Normal (mkCapabilities (exp_Agent m) (exp_Session m) (exp_Orchestrator m) None)
  /\ Eff.completion run = Exited 1
  /\ In (ConsoleError (Js.newline ++ Js.lit "Error: " ++ manager_not_available)) (Eff.trace run)
  /\ filter is_create_session (Eff.trace run) = [].
Proof.
  cbv zeta. split; [reflexivity|].
  split; [reflexivity|]. split; [|reflexivity].
  unfold runCommand, Sample.package_world, Sample.opts. cbn.
  repeat (first [left; reflexivity | right]).
Qed.

(** The same module, colocated, does give the manager to the native
    engine: the session is created. *)
Example local_runtime_has_manager :
  let run := runCommand (Sample.local_world None) (Js.lit "say hello") (Sample.opts "native") in
  exit_code (Eff.completion run) = 0%Z
  /\ List.length (filter is_create_session (Eff.trace run)) = 1.
Proof. vm_compute. split; reflexivity. Qed.

(* ===================================================================== *)
(** ** Tool discovery (C4) *)
(* ===================================================================== *)

(** C4, as stated, fails when the loader is found and its
    [initializeTools] throws: nothing catches the error before the
    top-level handler, no warning is printed and the process exits with
    code 1. *)
Lemma C4_loader_exception_is_fatal :
  let w := Sample.local_world (Some Sample.broken_loader) in
  let run := runCommand w (Js.lit "say hello") (Sample.opts "legacy") in
  In (InitializeTools Sample.dir) (Eff.trace run)
  /\ filter is_warning (Eff.trace run) = []
  /\ In (ConsoleError (Js.newline ++ Js.lit "Error: cannot scan tools")) (Eff.trace run)
  /\ Eff.completion run = Exited 1.
Proof.
  vm_compute. repeat split; auto 20.
Qed.

(** C4 (amended): when neither source yields the loader module, the
    warning is printed, the registry is empty, and the run goes on to the
    engine with that empty registry; the outcome of the run is then that
    of the engine and the report. *)
Theorem C4_missing_loader_is_not_fatal
        (w : World) (task : Js.str) (options : Options)
        (tr : list Event) (caps : Capabilities) :
  valid_engine (engine_of options) = true ->
  resolveRuntime w = (tr, Normal caps) ->
  import_local_loader w = None ->
  import_package_loader w = None ->
  resolveLoader w
  = ([Import LocalLoader; Import PackageLoader; ConsoleWarn loader_warning], Normal None)
  /\ loadTools w options None = ([], Normal [])
  /\ runCommand w task options
     = Eff.try_catch
         ((banner task (engine_of options) ++ tr
           ++ [Import LocalLoader; Import PackageLoader; ConsoleWarn loader_warning;
               ConsoleLog (Glyph.wrench ++ Js.lit " Initializing Cortex runtime...")],
           Normal tt) ;;
          result <- runEngine w (engine_of options) caps [] task options ;;
          report w result)
         (top_level_handler options).
Proof.
  intros Hv Hr Hl Hp.
  assert (E : resolveLoader w
              = ([Import LocalLoader; Import PackageLoader; ConsoleWarn loader_warning],
                 Normal None)).
  { unfold resolveLoader. rewrite Hl, Hp. reflexivity. }
  split; [exact E|]. split; [reflexivity|].
  unfold runCommand. rewrite (validateEngine_valid _ Hv), Hr, E.
  unfold loadTools, console_log, Eff.emit, Eff.ret, banner.
  rewrite !bind_normal, !prepend_prepend.
  rewrite <- !app_assoc. reflexivity.
Qed.

Lemma C4_missing_loader_is_not_fatal_witness :
  let run := runCommand (Sample.local_world None) (Js.lit "say hello") (Sample.opts "legacy") in
  List.length (filter is_warning (Eff.trace run)) = 1
  /\ exit_code (Eff.completion run) = 0%Z.
Proof.
  cbv zeta.
  destruct (@C4_missing_loader_is_not_fatal
              (Sample.local_world None) (Js.lit "say hello")
              (Sample.opts "legacy")
              [Import LocalCortex]
              (mkCapabilities (Some Sample.agent) (Some tt) (Some tt)
                              (Some Sample.manager))
              eq_refl eq_refl eq_refl eq_refl) as (_ & _ & E).
  rewrite E. vm_compute. split; reflexivity.
Defined.

(* ===================================================================== *)
(** ** Which events a piece of the command can perform *)
(* ===================================================================== *)

Section Only.
Context {A B : Type}.
Variable p : Event -> bool.

Lemma only_ret (a : A) : only p (Eff.ret a).
Proof. reflexivity. Qed.

Lemma only_throw (e : JsError) : only p (@Eff.throw A e).
Proof. reflexivity. Qed.

Lemma only_emit (e : Event) : p e = true -> only p (Eff.emit e).
Proof. unfold only; cbn. now intros ->. Qed.

Lemma only_exit (n : Z) : p (ProcessExit n) = true -> only p (@Eff.process_exit A n).
Proof. unfold only; cbn. now intros ->. Qed.

Lemma only_call (e : Event) (o : Outcome A) : p e = true -> only p (Eff.call e o).
Proof. unfold only; destruct o; cbn; now intros ->. Qed.

Lemma only_bind (m : Eff.t A) (f : A -> Eff.t B) :
  only p m -> (forall a, only p (f a)) -> only p (Eff.bind m f).
Proof.
  unfold only. destruct m as [t [a|e|n]]; cbn; intros Hm Hf; auto.
  specialize (Hf a). destruct (f a) as [t' c]; cbn in *.
  rewrite forallb_app. now rewrite Hm, Hf.
Qed.

Lemma only_try_catch (m : Eff.t A) (h : JsError -> Eff.t A) :
  only p m -> (forall e, only p (h e)) -> only p (Eff.try_catch m h).
Proof.
  unfold only. destruct m as [t [a|e|n]]; cbn; intros Hm Hh; auto.
  specialize (Hh e). destruct (h e) as [t' c]; cbn in *.
  rewrite forallb_app. now rewrite Hm, Hh.
Qed.

Lemma only_try_finally (m : Eff.t A) (fin : Eff.t unit) :
  only p m -> only p fin -> only p (Eff.try_finally m fin).
Proof.
  unfold only. destruct m as [t [a|e|n]]; destruct fin as [t' c]; cbn; intros Hm Hf; auto;
    rewrite forallb_app; now rewrite Hm, Hf.
Qed.
End Only.

Lemma only_when (p : Event -> bool) (b : bool) (m : Eff.t unit) :
  only p m -> only p (Eff.when b m).
Proof. destruct b; cbn; auto. intros _. reflexivity. Qed.

Lemma only_for_each {A} (p : Event -> bool) (l : list A) (f : A -> Eff.t unit) :
  (forall x, only p (f x)) -> only p (Eff.for_each l f).
Proof.
  intros Hf. induction l as [|x l IH]; cbn [Eff.for_each].
  - reflexivity.
  - apply only_bind; auto.
Qed.

(** Decomposes a goal [only p m] along the structure of [m]. *)
Ltac only_step :=
  first
    [ apply only_ret
    | apply only_throw
    | apply only_emit; reflexivity
    | apply only_exit; reflexivity
    | apply only_call; reflexivity
    | apply only_when
    | apply only_for_each; intros
    | apply only_try_catch; [|intros]
    | apply only_try_finally
    | apply only_bind; [|intros]
    | match goal with
      | |- only _ (if ?b then _ else _) => destruct b
      | |- only _ (match ?x with _ => _ end) => destruct x
      end ].
Ltac only_tac := repeat only_step.

Lemma filter_nil_of_forallb {A} (p q : A -> bool) (l : list A) :
  (forall x, p x = true -> q x = false) ->
  forallb p l = true -> filter q l = [].
Proof.
  intros Hpq. induction l as [|x l IH]; cbn; [reflexivity|].
  intros H. apply andb_true_iff in H as [Hx Hl].
  rewrite (Hpq x Hx). auto.
Qed.

Lemma forallb_weaken {A} (p q : A -> bool) (l : list A) :
  (forall x, p x = true -> q x = true) ->
  forallb p l = true -> forallb q l = true.
Proof.
  intros Hpq. induction l as [|x l IH]; cbn; [reflexivity|].
  intros H. apply andb_true_iff in H as [Hx Hl].
  rewrite (Hpq x Hx). auto.
Qed.

Lemma resolveRuntime_setup (w : World) (tr : list Event) (caps : Capabilities) :
  resolveRuntime w = (tr, Normal caps) -> forallb is_setup tr = true.
Proof.
  unfold resolveRuntime.
  destruct (import_local_cortex w); [|destruct (import_package_cortex w)]; cbn;
    intros H; inversion H; reflexivity.
Qed.

Lemma resolveLoader_setup (w : World) : only is_setup (resolveLoader w).
Proof. unfold resolveLoader, console_warn. only_tac. Qed.

Lemma loadTools_setup (w : World) (options : Options)
      (init : option (Js.str -> Outcome ToolRegistry)) :
  only is_setup (loadTools w options init).
Proof. unfold loadTools, console_log. only_tac. Qed.

Lemma banner_setup (task engine : Js.str) : forallb is_setup (banner task engine) = true.
Proof. reflexivity. Qed.

Lemma runCommand_after_setup
      (w : World) (task : Js.str) (options : Options)
      (tr1 tr2 tr3 : list Event) (caps : Capabilities)
      (init : option (Js.str -> Outcome ToolRegistry)) (tools : ToolRegistry) :
  valid_engine (engine_of options) = true ->
  resolveRuntime w = (tr1, Normal caps) ->
  resolveLoader w = (tr2, Normal init) ->
  loadTools w options init = (tr3, Normal tools) ->
  runCommand w task options
  = Eff.prepend (setup_trace task (engine_of options) tr1 tr2 tr3)
      (Eff.try_catch
         (result <- runEngine w (engine_of options) caps tools task options ;;
          report w result)
         (top_level_handler options)).
Proof.
  intros Hv H1 H2 H3.
  unfold runCommand. rewrite (validateEngine_valid _ Hv), H1, H2.
  unfold console_log at 1 2 3. unfold Eff.emit.
  rewrite !bind_normal, !prepend_prepend.
  rewrite H3, bind_normal, prepend_prepend, try_catch_prepend.
  unfold setup_trace, banner. cbn [app]. rewrite <- !app_assoc. reflexivity.
Qed.

Lemma setup_trace_setup
      (w : World) (task : Js.str) (options : Options)
      (tr1 tr2 tr3 : list Event) (caps : Capabilities)
      (init : option (Js.str -> Outcome ToolRegistry)) (tools : ToolRegistry) :
  resolveRuntime w = (tr1, Normal caps) ->
  resolveLoader w = (tr2, Normal init) ->
  loadTools w options init = (tr3, Normal tools) ->
  forallb is_setup (setup_trace task (engine_of options) tr1 tr2 tr3) = true.
Proof.
  intros H1 H2 H3. unfold setup_trace.
  rewrite !forallb_app, banner_setup, (resolveRuntime_setup _ H1).
  pose proof (resolveLoader_setup w) as R2. unfold only in R2. rewrite H2 in R2.
  pose proof (loadTools_setup w options init) as R3. unfold only in R3. rewrite H3 in R3.
  cbn in R2, R3. rewrite R2, R3. reflexivity.
Qed.

(* ===================================================================== *)
(** ** The native engine: guaranteed deactivation (C1) *)
(* ===================================================================== *)

Lemma exchange_shape (mgr : SessionManager) (sid task : Js.str) (options : Options) :
  exchange mgr sid task options
  = Eff.prepend
      (SendMessage sid task system_directive :: exchange_mid mgr sid task options
       ++ [DeactivateSession sid])
      (exchange_post mgr sid, exchange_completion mgr sid task).
Proof.
  unfold exchange, exchange_mid, exchange_post, exchange_completion.
  destruct (sendMessage mgr sid task system_directive) as [[c [[|x l]|]]|e];
    destruct (deactivateSession mgr sid) as [[]|e'];
    destruct (opt_verbose options); reflexivity.
Qed.

Lemma exchange_mid_setup (mgr : SessionManager) (sid task : Js.str) (options : Options) :
  forallb is_setup (exchange_mid mgr sid task options) = true.
Proof.
  unfold exchange_mid.
  destruct (sendMessage mgr sid task system_directive) as [resp|e]; [|reflexivity].
  destruct (toolUse resp) as [[|x l]|]; try reflexivity.
  destruct (opt_verbose options); reflexivity.
Qed.

Lemma report_not_deactivate (w : World) (r : ExecutionResult) :
  only not_deactivate (report w r).
Proof. unfold report, console_log. only_tac. Qed.

Lemma top_level_handler_not_deactivate (options : Options) (e : JsError) :
  only not_deactivate (top_level_handler options e).
Proof. unfold top_level_handler, console_error. only_tac. Qed.

Lemma nativeEngine_created
      (w : World) (caps : Capabilities) (tools : ToolRegistry)
      (task : Js.str) (options : Options) (mgr : SessionManager) (sid : Js.str) :
  NativeSessionManager caps = Some mgr ->
  createSession mgr (map descriptor tools) (session_metadata w) = Returns sid ->
  nativeEngine w caps tools task options
  = Eff.prepend
      [ConsoleLog (Glyph.rocket ++ Js.lit " Using Native Engine with Anthropic SDK");
       NewNativeSessionManager;
       CreateSession (map descriptor tools) (session_metadata w);
       ConsoleLog (Js.lit "Created native session: " ++ sid)]
      (exchange mgr sid task options).
Proof.
  intros Hm Hc. unfold nativeEngine. rewrite Hm.
  fold (session_metadata w). cbv zeta. rewrite Hc.
  unfold console_log, Eff.emit, Eff.call.
  rewrite !bind_normal, !prepend_prepend. reflexivity.
Qed.

(** C1: in a native run whose [createSession] returned [sid], the trace
    splits around one [deactivateSession(sid)]: [sendMessage] comes before
    it, no other deactivation occurs on either side, and nothing of the
    top-level handler (error report, exit) comes before it.  When
    [sendMessage] throws, the handler's exit with code 1 comes after. *)
Theorem C1_native_session_deactivated_once
        (w : World) (task : Js.str) (options : Options)
        (tr1 tr2 tr3 : list Event) (caps : Capabilities)
        (init : option (Js.str -> Outcome ToolRegistry)) (tools : ToolRegistry)
        (mgr : SessionManager) (sid : Js.str) :
  engine_of options = native ->
  resolveRuntime w = (tr1, Normal caps) ->
  resolveLoader w = (tr2, Normal init) ->
  loadTools w options init = (tr3, Normal tools) ->
  NativeSessionManager caps = Some mgr ->
  createSession mgr (map descriptor tools) (session_metadata w) = Returns sid ->
  exists before after,
    Eff.trace (runCommand w task options) = before ++ DeactivateSession sid :: after
    /\ In (SendMessage sid task system_directive) before
    /\ filter is_deactivate before = []
    /\ filter is_deactivate after = []
    /\ filter is_handler before = []
    /\ (forall e, sendMessage mgr sid task system_directive = Throws e ->
          In (ProcessExit 1) after
          /\ Eff.completion (runCommand w task options) = Exited 1).
Proof.
  intros He H1 H2 H3 Hm Hc.
  assert (Hv : valid_engine (engine_of options) = true) by (rewrite He; reflexivity).
  pose proof (setup_trace_setup w task options H1 H2 H3) as Hs.
  rewrite (runCommand_after_setup w task options Hv H1 H2 H3).
  unfold runEngine. rewrite He in *. change (Js.eqb native native) with true. cbv iota.
  rewrite (nativeEngine_created w caps tools task options Hm Hc), exchange_shape.
  rewrite prepend_prepend, bind_prepend, try_catch_prepend, prepend_prepend.
  set (pre := setup_trace task native tr1 tr2 tr3) in *.
  set (mid := exchange_mid mgr sid task options).
  set (rest := Eff.try_catch _ _).
  exists (pre ++ [ConsoleLog (Glyph.rocket ++ Js.lit " Using Native Engine with Anthropic SDK");
                  NewNativeSessionManager;
                  CreateSession (map descriptor tools) (session_metadata w);
                  ConsoleLog (Js.lit "Created native session: " ++ sid);
                  SendMessage sid task system_directive] ++ mid),
         (Eff.trace rest).
  assert (Hquiet : forallb (fun e => negb (is_deactivate e) && negb (is_handler e))
                     (pre ++ [ConsoleLog (Glyph.rocket ++ Js.lit " Using Native Engine with Anthropic SDK");
                              NewNativeSessionManager;
                              CreateSession (map descriptor tools) (session_metadata w);
                              ConsoleLog (Js.lit "Created native session: " ++ sid);
                              SendMessage sid task system_directive] ++ mid) = true).
  { rewrite !forallb_app. apply andb_true_iff; split; [|apply andb_true_iff; split].
    - revert Hs. apply forallb_weaken. now intros [].
    - reflexivity.
    - generalize (exchange_mid_setup mgr sid task options). apply forallb_weaken. now intros []. }
  repeat split.
  - rewrite trace_prepend. cbn [app]. rewrite <- !app_assoc. cbn [app].
    do 6 f_equal. rewrite <- app_assoc. reflexivity.
  - apply in_or_app. right. cbn. auto 10.
  - revert Hquiet. apply filter_nil_of_forallb.
    intros x Hx. apply andb_true_iff in Hx as [Hx _]. now apply negb_true_iff.
  - assert (Hr : only not_deactivate rest).
    { subst rest. apply only_try_catch; [|intros; apply top_level_handler_not_deactivate].
      apply only_bind; [|intros; apply report_not_deactivate].
      unfold only, exchange_post; cbn. now destruct (deactivateSession mgr sid). }
    revert Hr. apply filter_nil_of_forallb.
    intros x Hx. now apply negb_true_iff.
  - revert Hquiet. apply filter_nil_of_forallb.
    intros x Hx. apply andb_true_iff in Hx as [_ Hx]. now apply negb_true_iff.
  - subst rest. unfold exchange_post, exchange_completion, top_level_handler. rewrite H.
    destruct (deactivateSession mgr sid) as [[]|e']; destruct (opt_verbose options);
      cbn; auto 10.
  - rewrite completion_prepend. subst rest.
    unfold exchange_post, exchange_completion, top_level_handler. rewrite H.
    destruct (deactivateSession mgr sid) as [[]|e']; destruct (opt_verbose options);
      reflexivity.
Qed.

Lemma C1_native_session_deactivated_once_witness :
  let w := mkWorld (Some (mkCortexModule (Some Sample.agent) (Some tt)
                                         (Some Sample.failing_manager) (Some tt)))
                   None None None Sample.dir 1000 2500 in
  let task := Js.lit "summarise the changelog" in
  let run := runCommand w task (Sample.opts "native") in
  exists before after,
    Eff.trace run = before ++ DeactivateSession (Js.lit "session-1") :: after
    /\ In (SendMessage (Js.lit "session-1") task system_directive) before
    /\ filter is_deactivate before = []
    /\ filter is_deactivate after = []
    /\ filter is_handler before = []
    /\ (forall e, sendMessage Sample.failing_manager (Js.lit "session-1") task system_directive
                  = Throws e ->
          In (ProcessExit 1) after /\ Eff.completion run = Exited 1).
Proof.
  cbv zeta.
  apply (@C1_native_session_deactivated_once
           (mkWorld (Some (mkCortexModule (Some Sample.agent) (Some tt)
                                          (Some Sample.failing_manager) (Some tt)))
                    None None None Sample.dir 1000 2500)
           (Js.lit "summarise the changelog") (Sample.opts "native")
           [Import LocalCortex]
           [Import LocalLoader; Import PackageLoader; ConsoleWarn loader_warning]
           []
           (mkCapabilities (Some Sample.agent) (Some tt) (Some tt)
                           (Some Sample.failing_manager))
           None [] Sample.failing_manager (Js.lit "session-1"));
    reflexivity.
Defined.

(* ===================================================================== *)
(** ** The legacy engine: cleanup only after a normal return (C6) *)
(* ===================================================================== *)

Lemma legacyEngine_started
      (w : World) (caps : Capabilities) (tools : ToolRegistry) (task : Js.str)
      (cls : AgentClass) :
  Session caps = Some tt ->
  Agent caps = Some cls ->
  legacyEngine w caps tools task
  = Eff.prepend (legacy_start w)
      (result <- LocalExecutorAgent_run tools task ;;
       Eff.call AgentCleanup (agent_cleanup cls) ;;
       Eff.ret result).
Proof.
  intros Hs Ha. unfold legacyEngine. rewrite Hs, Ha.
  unfold console_log, Eff.emit.
  rewrite !bind_normal, !prepend_prepend. reflexivity.
Qed.

Lemma LocalExecutorAgent_run_not_cleanup (tools : ToolRegistry) (task : Js.str) :
  only not_agent_cleanup (LocalExecutorAgent_run tools task).
Proof.
  unfold LocalExecutorAgent_run, browse, tool_execute, agent_log. only_tac.
Qed.

Lemma report_not_cleanup (w : World) (r : ExecutionResult) :
  only not_agent_cleanup (report w r).
Proof. unfold report, console_log. only_tac. Qed.

Lemma top_level_handler_not_cleanup (options : Options) (e : JsError) :
  only not_agent_cleanup (top_level_handler options e).
Proof. unfold top_level_handler, console_error. only_tac. Qed.

Lemma setup_not_cleanup (l : list Event) :
  forallb is_setup l = true -> forallb not_agent_cleanup l = true.
Proof. apply forallb_weaken. now intros []. Qed.

Lemma not_cleanup_filter (l : list Event) :
  forallb not_agent_cleanup l = true -> filter is_agent_cleanup l = [].
Proof.
  apply filter_nil_of_forallb. intros x Hx. now apply negb_true_iff.
Qed.

(** C6: in a legacy run that reached the agent, [agent.cleanup()] is
    called exactly once, right after the events of the run step, when the
    run step returns a result (a success or a structured failure alike);
    when the run step throws, the trace has no cleanup call at all, the
    top-level handler reports the error and the process exits with code
    1. *)
Theorem C6_legacy_cleanup_skipped_on_throw
        (w : World) (task : Js.str) (options : Options)
        (tr1 tr2 tr3 : list Event) (caps : Capabilities)
        (init : option (Js.str -> Outcome ToolRegistry)) (tools : ToolRegistry)
        (cls : AgentClass) :
  engine_of options = legacy ->
  resolveRuntime w = (tr1, Normal caps) ->
  resolveLoader w = (tr2, Normal init) ->
  loadTools w options init = (tr3, Normal tools) ->
  Session caps = Some tt ->
  Agent caps = Some cls ->
  let run := runCommand w task options in
  (forall tr r,
      LocalExecutorAgent_run tools task = (tr, Normal r) ->
      exists before after,
        Eff.trace run = (before ++ tr) ++ AgentCleanup :: after
        /\ filter is_agent_cleanup (before ++ tr) = []
        /\ filter is_agent_cleanup after = [])
  /\ (forall tr e,
         LocalExecutorAgent_run tools task = (tr, Thrown e) ->
         filter is_agent_cleanup (Eff.trace run) = []
         /\ In (ConsoleError (Js.newline ++ Js.lit "Error: " ++ err_message e)) (Eff.trace run)
         /\ Eff.completion run = Exited 1).
Proof.
  intros He H1 H2 H3 Hs Ha. cbv zeta.
  assert (Hv : valid_engine (engine_of options) = true) by (rewrite He; reflexivity).
  pose proof (setup_not_cleanup _ (setup_trace_setup w task options H1 H2 H3)) as Hpre.
  rewrite (runCommand_after_setup w task options Hv H1 H2 H3).
  unfold runEngine. rewrite He in *. change (Js.eqb legacy native) with false. cbv iota.
  rewrite (legacyEngine_started w caps tools task Hs Ha).
  rewrite bind_prepend, try_catch_prepend, prepend_prepend.
  set (pre := setup_trace task legacy tr1 tr2 tr3 ++ legacy_start w) in *.
  assert (Hpre' : forallb not_agent_cleanup pre = true).
  { subst pre. rewrite forallb_app, Hpre. reflexivity. }
  pose proof (LocalExecutorAgent_run_not_cleanup tools task) as Hrun. unfold only in Hrun.
  split.
  - intros tr r E. rewrite E in *. cbn in Hrun.
    rewrite call_prepend, bind_normal, !bind_prepend, !try_catch_prepend.
    exists pre.
    exists (Eff.trace
              (Eff.try_catch
                 (result <- (Eff.of_outcome (agent_cleanup cls) ;; Eff.ret r) ;;
                  report w result)
                 (top_level_handler options))).
    repeat split.
    + rewrite !trace_prepend. rewrite <- app_assoc. reflexivity.
    + apply not_cleanup_filter. rewrite forallb_app, Hpre', Hrun. reflexivity.
    + apply not_cleanup_filter.
      apply only_try_catch; [|intros; apply top_level_handler_not_cleanup].
      apply only_bind; [|intros; apply report_not_cleanup].
      destruct (agent_cleanup cls) as [[]|err]; reflexivity.
  - intros tr e E. rewrite E in *. cbn in Hrun.
    rewrite bind_thrown. unfold Eff.try_catch, top_level_handler, console_error, Eff.emit.
    rewrite trace_prepend, completion_prepend.
    repeat split.
    + apply not_cleanup_filter. rewrite forallb_app, Hpre'.
      destruct (opt_verbose options); cbn; rewrite forallb_app, Hrun; reflexivity.
    + apply in_or_app. right.
      destruct (opt_verbose options); cbn; apply in_or_app; right; cbn; auto.
    + destruct (opt_verbose options); reflexivity.
Qed.

Lemma C6_legacy_cleanup_skipped_on_throw_witness :
  let w := Sample.local_world (Some (Sample.loader Sample.crashing_browser)) in
  let run := runCommand w (Js.lit "title of example.com") (Sample.opts "legacy") in
  filter is_agent_cleanup (Eff.trace run) = []
  /\ In (ConsoleError (Js.newline ++ Js.lit "Error: browser crashed")) (Eff.trace run)
  /\ Eff.completion run = Exited 1.
Proof.
  cbv zeta.
  refine (proj2 (@C6_legacy_cleanup_skipped_on_throw
           (Sample.local_world (Some (Sample.loader Sample.crashing_browser)))
           (Js.lit "title of example.com") (Sample.opts "legacy")
           [Import LocalCortex]
           [Import LocalLoader]
           [ConsoleLog (Glyph.hammer_wrench ++ Js.lit "  Loading dynamic tools...");
            InitializeTools Sample.dir]
           (mkCapabilities (Some Sample.agent) (Some tt) (Some tt) (Some Sample.manager))
           (Some (fun _ => Returns (Sample.registry Sample.crashing_browser)))
           (Sample.registry Sample.crashing_browser) Sample.agent
           eq_refl eq_refl eq_refl eq_refl eq_refl eq_refl)
           _ (Error_ (Js.lit "browser crashed")) eq_refl).
Defined.

(* ===================================================================== *)
(** ** The legacy browser task (C7, C8, C10) *)
(* ===================================================================== *)

(** C7: for a browser task with an extractable target and a registered
    PlaywrightBrowser tool.  When [goto] and [title] both succeed (and the
    tool's cleanup hook, if any, returns), the run step returns a success
    whose title is the tool's reported title and whose message is
    "Page title: " followed by that title.  When [goto] fails, its error
    is the result's error and nothing is called after [goto]; when
    [title] fails, its error is the result's error and the cleanup hook is
    not called. *)
Theorem C7_browser_title_result
        (tools : ToolRegistry) (task : Js.str) (tool : Tool)
        (m : Regex.result) (url : Js.str) :
  is_browser_task task = true ->
  registry_get (Js.lit "PlaywrightBrowser") tools = Some tool ->
  Regex.exec Regex.url_pattern task = Some m ->
  Regex.group1 m = Some url ->
  let execute := def_execute (definition tool) in
  let run := LocalExecutorAgent_run tools task in
  (forall nav tit,
      execute (Goto (goto_url url)) = Returns nav -> tr_success nav = true ->
      execute Title = Returns tit -> tr_success tit = true ->
      cleanup (definition tool) = None \/ cleanup (definition tool) = Some (Returns tt) ->
      exists r,
        Eff.completion run = Normal r
        /\ success r = true
        /\ title r = tr_data tit
        /\ message r = Some (Js.lit "Page title: " ++ show (tr_data tit))
        /\ error r = None)
  /\ (forall nav,
         execute (Goto (goto_url url)) = Returns nav -> tr_success nav = false ->
         run = (browse_start url ++ [run_completed], Normal (failure (tr_error nav))))
  /\ (forall nav tit,
         execute (Goto (goto_url url)) = Returns nav -> tr_success nav = true ->
         execute Title = Returns tit -> tr_success tit = false ->
         run = (browse_start url
                ++ [AgentLog (Js.lit "Getting page title...") None;
                    ToolExecute Title; run_completed],
                Normal (failure (tr_error tit)))).
Proof.
  intros Hb Ht Hm Hg. cbv zeta.
  unfold LocalExecutorAgent_run, browse, tool_execute.
  rewrite Hb, Ht, Hm, Hg.
  split; [|split].
  - intros nav tit Hnav Hns Htit Hts Hc.
    rewrite Hnav. cbn. rewrite Hns. rewrite Htit. cbn. rewrite Hts.
    destruct Hc as [Hc|Hc]; rewrite Hc; cbn; eexists; repeat split.
  - intros nav Hnav Hns. rewrite Hnav. cbn. rewrite Hns. reflexivity.
  - intros nav tit Hnav Hns Htit Hts.
    rewrite Hnav. cbn. rewrite Hns. rewrite Htit. cbn. rewrite Hts. reflexivity.
Qed.

Lemma C7_browser_title_result_witness :
  exists r,
    Eff.completion (LocalExecutorAgent_run (Sample.registry Sample.browser)
                                           (Js.lit "get the title of example.com"))
    = Normal r
    /\ success r = true
    /\ title r = Some (Js.lit "Example Domain")
    /\ message r = Some (Js.lit "Page title: " ++ show (Some (Js.lit "Example Domain")))
    /\ error r = None.
Proof.
  refine (proj1 (@C7_browser_title_result
                   (Sample.registry Sample.browser)
                   (Js.lit "get the title of example.com")
                   Sample.browser
                   (Regex.mkMatch (Js.lit "title of example.com") (Some (Js.lit "example.com")))
                   (Js.lit "example.com")
                   eq_refl eq_refl eq_refl eq_refl)
                (mkToolResult true None None)
                (mkToolResult true (Some (Js.lit "Example Domain")) None)
                eq_refl eq_refl eq_refl eq_refl (or_intror eq_refl)).
Defined.

(** C8, as stated, fails in both directions: "httpbin.org" carries no
    scheme and is passed to [goto] as it is, and "ftp://example.com"
    carries one and is passed with "https://" in front. *)
Lemma C8_scheme_is_not_what_is_tested :
  let run (task : Js.str) :=
    LocalExecutorAgent_run (Sample.registry Sample.browser) task in
  Spec.has_scheme (Js.lit "httpbin.org") = false
  /\ filter is_goto (Eff.trace (run (Js.lit "title of httpbin.org")))
     = [ToolExecute (Goto (Js.lit "httpbin.org"))]
  /\ Spec.has_scheme (Js.lit "ftp://example.com") = true
  /\ filter is_goto (Eff.trace (run (Js.lit "title of ftp://example.com")))
     = [ToolExecute (Goto (Js.lit "https://ftp://example.com"))].
Proof.
  vm_compute. repeat split.
Qed.

Lemma browse_goto_once (tool : Tool) (task : Js.str) (m : Regex.result) (url : Js.str) :
  Regex.exec Regex.url_pattern task = Some m ->
  Regex.group1 m = Some url ->
  filter is_goto (Eff.trace (browse tool task)) = [ToolExecute (Goto (goto_url url))].
Proof.
  intros Hm Hg. unfold browse, tool_execute. rewrite Hm, Hg.
  destruct (def_execute (definition tool) (Goto (goto_url url))) as [[[] d e]|err];
    try reflexivity.
  destruct (def_execute (definition tool) Title) as [[[] d' e']|err]; try reflexivity.
  destruct (cleanup (definition tool)) as [[[]|err]|]; reflexivity.
Qed.

(** C8 (amended): on the browser path a target is passed to [goto]
    unchanged when it begins with the four characters "http", and with
    "https://" in front otherwise; [goto] is called once, with that
    address. *)
Theorem C8_goto_address_by_http_prefix
        (tools : ToolRegistry) (task : Js.str) (tool : Tool)
        (m : Regex.result) (url : Js.str) :
  is_browser_task task = true ->
  registry_get (Js.lit "PlaywrightBrowser") tools = Some tool ->
  Regex.exec Regex.url_pattern task = Some m ->
  Regex.group1 m = Some url ->
  let gotos := filter is_goto (Eff.trace (LocalExecutorAgent_run tools task)) in
  (Js.startsWith (Js.lit "http") url = true -> gotos = [ToolExecute (Goto url)])
  /\ (Js.startsWith (Js.lit "http") url = false ->
      gotos = [ToolExecute (Goto (Js.lit "https://" ++ url))]).
Proof.
  intros Hb Ht Hm Hg. cbv zeta.
  assert (E : filter is_goto (Eff.trace (LocalExecutorAgent_run tools task))
              = [ToolExecute (Goto (goto_url url))]).
  { pose proof (browse_goto_once tool task Hm Hg) as B.
    unfold LocalExecutorAgent_run. rewrite Hb, Ht.
    destruct (browse tool task) as [t [r|e|n]]; cbn in *;
      rewrite ?filter_app; cbn; rewrite ?B; rewrite ?app_nil_r; try reflexivity; exact B. }
  rewrite E. unfold goto_url.
  split; intros ->; reflexivity.
Qed.

Lemma C8_goto_address_by_http_prefix_witness :
  filter is_goto
    (Eff.trace (LocalExecutorAgent_run (Sample.registry Sample.browser)
                                       (Js.lit "get the title of example.com")))
  = [ToolExecute (Goto (Js.lit "https://" ++ Js.lit "example.com"))].
Proof.
  refine (proj2 (@C8_goto_address_by_http_prefix
                   (Sample.registry Sample.browser)
                   (Js.lit "get the title of example.com")
                   Sample.browser
                   (Regex.mkMatch (Js.lit "title of example.com") (Some (Js.lit "example.com")))
                   (Js.lit "example.com")
                   eq_refl eq_refl eq_refl eq_refl) eq_refl).
Defined.

(** *** The regular expression against the specification's words *)

Ltac split_compare :=
  repeat match goal with
         | |- context [(?a <=? ?b)%N] => destruct (N.leb_spec a b)
         | H : context [(?a <=? ?b)%N] |- _ => destruct (N.leb_spec a b)
         | |- context [(?a =? ?b)%N] => destruct (N.eqb_spec a b)
         end; cbn in *.

Lemma fold_case (x y : N) :
  Js.lower_unit x = x ->
  N.eqb (Regex.canonicalize y) (Regex.canonicalize x) = N.eqb (Js.lower_unit y) x.
Proof.
  unfold Regex.canonicalize, Js.upper_unit, Js.lower_unit.
  intros Hx. split_compare; try reflexivity; try lia.
Qed.

Lemma run_chars {R} (p s : Js.str) (cap : option Js.str)
      (k : Js.str -> option Js.str -> option R) :
  Forall (fun x => Js.lower_unit x = x) p ->
  Regex.run (Regex.chars p) s cap k
  = match Spec.after_phrase p s with
    | Some rest => k rest cap
    | None => None
    end.
Proof.
  intros Hp. revert s. induction Hp as [|x p Hx Hp IH]; intros s; cbn.
  - reflexivity.
  - destruct s as [|y s]; [reflexivity|].
    rewrite (fold_case y Hx). destruct (N.eqb (Js.lower_unit y) x); [apply IH|reflexivity].
Qed.

Lemma take_word_after_word (s : Js.str) : Spec.take_word s ++ after_word s = s.
Proof.
  unfold after_word. induction s as [|c s IH]; cbn; [reflexivity|].
  destruct (Js.is_space c); cbn; [reflexivity|]. now rewrite IH.
Qed.

Lemma firstn_take_word (s : Js.str) :
  firstn (List.length s - List.length (after_word s)) s = Spec.take_word s.
Proof.
  pose proof (take_word_after_word s) as E.
  assert (L : List.length s - List.length (after_word s) = List.length (Spec.take_word s)).
  { rewrite <- E at 1. rewrite length_app. lia. }
  rewrite L. rewrite <- E at 2. rewrite firstn_app, Nat.sub_diag, firstn_all. cbn.
  apply app_nil_r.
Qed.

Lemma plus_not_space {R} (s : Js.str) (f : Js.str -> R) :
  Regex.plus_atom Regex.NotSpace s (fun s' => Some (f s'))
  = match Spec.take_word s with
    | [] => None
    | _ => Some (f (after_word s))
    end.
Proof.
  induction s as [|c s IH]; [reflexivity|].
  cbn [Regex.plus_atom Regex.atom_matches Spec.take_word].
  destruct (Js.is_space c) eqn:Hc; cbn [negb]; [reflexivity|].
  assert (E : after_word (c :: s) = after_word s).
  { unfold after_word. cbn. now rewrite Hc. }
  rewrite IH, E.
  destruct (Spec.take_word s) eqn:Hw; [|reflexivity].
  unfold after_word. rewrite Hw. reflexivity.
Qed.

Lemma plus_space {R} (s : Js.str) (k : Js.str -> option R) :
  k [] = None ->
  (forall c s', Js.is_space c = true -> k (c :: s') = None) ->
  Regex.plus_atom Regex.Space s k
  = match s with
    | [] => None
    | c :: _ => if Js.is_space c then k (Spec.drop_spaces s) else None
    end.
Proof.
  intros Hnil Hsp. induction s as [|c s IH]; cbn; [reflexivity|].
  destruct (Js.is_space c) eqn:Hc; [|reflexivity].
  rewrite IH. destruct s as [|c' s']; cbn.
  - now rewrite Hnil.
  - destruct (Js.is_space c') eqn:Hc'.
    + destruct (k (Spec.drop_spaces s')); [reflexivity|]. now apply Hsp.
    + reflexivity.
Qed.

(** The tail [\s+([^\s]+)] of the pattern, from the end of the phrase. *)
Lemma run_tail (s0 s : Js.str) (cap : option Js.str) :
  option_map Regex.group1
    (Regex.run (Regex.Seq (Regex.Plus Regex.Space) (Regex.Group (Regex.Plus Regex.NotSpace)))
               s cap
               (fun s' cap' =>
                  Some (Regex.mkMatch (firstn (List.length s0 - List.length s') s0) cap')))
  = option_map Some (Spec.word_after_space s).
Proof.
  cbn [Regex.run].
  rewrite plus_space.
  - unfold Spec.word_after_space. destruct s as [|c s']; [reflexivity|].
    destruct (Js.is_space c); [|reflexivity].
    rewrite (plus_not_space (Spec.drop_spaces (c :: s'))
               (fun s'0 => Regex.mkMatch
                             (firstn (List.length s0 - List.length s'0) s0)
                             (Some (firstn (List.length (Spec.drop_spaces (c :: s'))
                                            - List.length s'0)
                                           (Spec.drop_spaces (c :: s')))))).
    destruct (Spec.take_word (Spec.drop_spaces (c :: s'))) eqn:Hw; [reflexivity|].
    cbn [option_map Regex.group1]. rewrite firstn_take_word, Hw. reflexivity.
  - reflexivity.
  - intros c s' Hc. cbn. now rewrite Hc.
Qed.

Lemma phrase_step (s0 p s : Js.str) :
  Forall (fun x => Js.lower_unit x = x) p ->
  option_map Regex.group1
    (Regex.run (Regex.chars p) s None
       (fun s1 cap1 =>
          Regex.run pattern_tail s1 cap1
            (fun s' cap' =>
               Some (Regex.mkMatch (firstn (List.length s0 - List.length s') s0) cap'))))
  = option_map Some
      match Spec.after_phrase p s with
      | Some rest => Spec.word_after_space rest
      | None => None
      end.
Proof.
  intros Hp. rewrite (run_chars _ _ _ Hp).
  destruct (Spec.after_phrase p s) as [rest|]; [|reflexivity].
  apply run_tail.
Qed.

Lemma alt_step (X Y : option Regex.result) (w t : option Js.str) :
  option_map Regex.group1 X = option_map Some w ->
  option_map Regex.group1 Y = option_map Some t ->
  option_map Regex.group1 match X with Some x => Some x | None => Y end
  = option_map Some match w with Some u => Some u | None => t end.
Proof.
  destruct X, w; cbn; intros H1 H2; congruence.
Qed.

Lemma alt_last (X : option Regex.result) (w : option Js.str) :
  option_map Regex.group1 X = option_map Some w ->
  option_map Regex.group1 X
  = option_map Some match w with Some u => Some u | None => None end.
Proof. now destruct w. Qed.

Lemma lower_phrases : Forall (Forall (fun x => Js.lower_unit x = x)) Spec.phrases.
Proof. repeat constructor. Qed.

Lemma match_here_target (s : Js.str) :
  option_map Regex.group1 (Regex.match_here Regex.url_pattern s)
  = option_map Some (Spec.target_of Spec.phrases s).
Proof.
  pose proof lower_phrases as L. unfold Spec.phrases in *.
  inversion L as [|? ? L1 L']; subst. inversion L' as [|? ? L2 L'']; subst.
  inversion L'' as [|? ? L3 L''']; subst. inversion L''' as [|? ? L4 _]; subst.
  unfold Regex.match_here, Regex.url_pattern.
  fold pattern_tail. cbn [Regex.run Spec.target_of].
  repeat apply alt_step; try (apply phrase_step; assumption).
  apply alt_last. apply phrase_step; assumption.
Qed.

(** The regular expression of the source finds exactly the target the
    specification describes. *)
Lemma exec_extract_target (task : Js.str) :
  option_map Regex.group1 (Regex.exec Regex.url_pattern task)
  = option_map Some (Spec.extract_target task).
Proof.
  induction task as [|c task IH].
  - cbn [Regex.exec Spec.extract_target].
    pose proof (match_here_target []) as H.
    destruct (Regex.match_here Regex.url_pattern []), (Spec.target_of Spec.phrases []);
      cbn in *; congruence.
  - cbn [Regex.exec Spec.extract_target].
    pose proof (match_here_target (c :: task)) as H.
    destruct (Regex.match_here Regex.url_pattern (c :: task)),
             (Spec.target_of Spec.phrases (c :: task));
      cbn [option_map] in *; try congruence.
Qed.

Lemma run_step_browse_prefix
      (tools : ToolRegistry) (task : Js.str) (tool : Tool)
      (m : Regex.result) (url : Js.str) :
  is_browser_task task = true ->
  registry_get (Js.lit "PlaywrightBrowser") tools = Some tool ->
  Regex.exec Regex.url_pattern task = Some m ->
  Regex.group1 m = Some url ->
  exists post, Eff.trace (LocalExecutorAgent_run tools task) = browse_start url ++ post.
Proof.
  intros Hb Ht Hm Hg.
  unfold LocalExecutorAgent_run, browse, tool_execute. rewrite Hb, Ht, Hm, Hg.
  destruct (def_execute (definition tool) (Goto (goto_url url))) as [[[] d e]|err];
    try (eexists; reflexivity).
  destruct (def_execute (definition tool) Title) as [[[] d' e']|err];
    try (eexists; reflexivity).
  destruct (cleanup (definition tool)) as [[[]|err]|]; eexists; reflexivity.
Qed.

(** C10: the target the regular expression captures is the one the
    specification describes: the maximal run of non-whitespace characters
    after the leftmost occurrence, in any letter case, of "title of",
    "visit", "go to" or "navigate to" followed by whitespace and such a
    run.  On the browser path that word is what is logged and what [goto]
    is called for; when there is none, the run step returns the failure
    "Could not extract URL from task" without calling the tool. *)
Theorem C10_target_is_word_after_phrase
        (tools : ToolRegistry) (task : Js.str) (tool : Tool) :
  is_browser_task task = true ->
  registry_get (Js.lit "PlaywrightBrowser") tools = Some tool ->
  let run := LocalExecutorAgent_run tools task in
  option_map Regex.group1 (Regex.exec Regex.url_pattern task)
  = option_map Some (Spec.extract_target task)
  /\ (forall target,
         Spec.extract_target task = Some target ->
         exists post, Eff.trace run = browse_start target ++ post)
  /\ (Spec.extract_target task = None ->
      run = ([AgentLog (Js.lit "Starting local task execution...") None;
              AgentLog (Js.lit "Using Playwright browser tool...") None;
              run_completed],
             Normal (failure (Some (Js.lit "Could not extract URL from task"))))).
Proof.
  intros Hb Ht. cbv zeta.
  pose proof (exec_extract_target task) as E.
  split; [exact E|]. split.
  - intros target Hx. rewrite Hx in E.
    destruct (Regex.exec Regex.url_pattern task) as [m|] eqn:Hm; [|discriminate].
    cbn in E. injection E as Hg.
    exact (run_step_browse_prefix tools task Hb Ht Hm Hg).
  - intros Hx. rewrite Hx in E.
    destruct (Regex.exec Regex.url_pattern task) as [m|] eqn:Hm; [discriminate|].
    unfold LocalExecutorAgent_run, browse. rewrite Hb, Ht, Hm. reflexivity.
Qed.

Lemma C10_target_is_word_after_phrase_witness :
  let task := Js.lit "Please get the Title Of   example.com, thanks." in
  Spec.extract_target task = Some (Js.lit "example.com,")
  /\ exists post,
      Eff.trace (LocalExecutorAgent_run (Sample.registry Sample.browser) task)
      = browse_start (Js.lit "example.com,") ++ post.
Proof.
  cbv zeta. split; [reflexivity|].
  apply (proj1 (proj2 (@C10_target_is_word_after_phrase
                         (Sample.registry Sample.browser)
                         (Js.lit "Please get the Title Of   example.com, thanks.")
                         Sample.browser eq_refl eq_refl))).
  reflexivity.
Defined.

(* ===================================================================== *)
(** ** The shape of the results (C5) *)
(* ===================================================================== *)

Section Returns.
Context {A B : Type}.
Variable P : B -> Prop.

Lemma returns_bind (Q : A -> Prop) (m : Eff.t A) (f : A -> Eff.t B) :
  returns Q m -> (forall a, Q a -> returns P (f a)) -> returns P (Eff.bind m f).
Proof.
  unfold returns. destruct m as [t [a|e|n]]; cbn; intros Hm Hf tr b E; try discriminate.
  specialize (Hf a (Hm t a eq_refl)). destruct (f a) as [t' c]. 
  inversion E; subst. eapply Hf. reflexivity.
Qed.

Lemma returns_then (m : Eff.t A) (f : A -> Eff.t B) :
  (forall a, returns P (f a)) -> returns P (Eff.bind m f).
Proof.
  intros Hf. apply returns_bind with (Q := fun _ => True); [intros ? ? ?; exact I|auto].
Qed.

Lemma returns_call (e : Event) (o : Outcome A) (f : A -> Eff.t B) :
  (forall a, o = Returns a -> returns P (f a)) -> returns P (Eff.bind (Eff.call e o) f).
Proof.
  intros Hf. apply returns_bind with (Q := fun a => o = Returns a); [|exact Hf].
  intros tr a E. destruct o; cbn in E; inversion E; reflexivity.
Qed.

Lemma returns_ret (b : B) : P b -> returns P (Eff.ret b).
Proof. intros Hb tr a E. inversion E; subst. exact Hb. Qed.

Lemma returns_throw (e : JsError) : returns P (@Eff.throw B e).
Proof. intros tr a E. discriminate. Qed.

Lemma returns_try_catch (m : Eff.t B) (h : JsError -> Eff.t B) :
  returns P m -> (forall e, returns P (h e)) -> returns P (Eff.try_catch m h).
Proof.
  unfold returns. destruct m as [t [a|e|n]]; cbn; intros Hm Hh tr b E;
    try discriminate.
  - inversion E; subst. eapply Hm. reflexivity.
  - specialize (Hh e). destruct (h e) as [t' c]. inversion E; subst.
    eapply Hh. reflexivity.
Qed.
End Returns.

Lemma exchange_normalized (mgr : SessionManager) (sid task : Js.str) (options : Options) :
  returns (fun r => normalized r = true /\ (success r = true -> populated (message r) = true))
          (exchange mgr sid task options).
Proof.
  intros tr r E. rewrite exchange_shape in E.
  apply (f_equal snd) in E. unfold Eff.prepend, Eff.completion in E.
  cbn [snd] in E. unfold exchange_completion in E.
  destruct (deactivateSession mgr sid); [|discriminate].
  destruct (sendMessage mgr sid task system_directive); [|discriminate].
  inversion E; subst. split; [reflexivity|intros _; reflexivity].
Qed.

Lemma browse_normalized (tool : Tool) (task : Js.str) :
  reports_errors tool ->
  returns (fun r => normalized r = true /\ (success r = true -> populated (message r) = true))
          (browse tool task).
Proof.
  intros Ht. unfold browse, tool_execute.
  apply returns_then; intros _.
  destruct (Regex.exec Regex.url_pattern task) as [m|];
    [|apply returns_ret; split; [reflexivity|discriminate]].
  destruct (Regex.group1 m) as [url|];
    [|apply returns_then; intros _; apply returns_throw].
  apply returns_then; intros _.
  apply returns_call; intros nav Hnav.
  destruct (tr_success nav) eqn:Hns.
  - apply returns_then; intros _.
    apply returns_call; intros tit Htit.
    destruct (tr_success tit) eqn:Hts.
    + apply returns_then; intros _. apply returns_ret. split; [reflexivity|intros _; reflexivity].
    + apply returns_ret. split; [|discriminate].
      exact (Ht Title tit Htit Hts).
  - apply returns_ret. split; [|discriminate].
    exact (Ht _ nav Hnav Hns).
Qed.

(** C5, as stated, fails when the browser tool reports a failure with no
    error value: the result is a failure whose error field is
    undefined. *)
Lemma C5_failure_without_error :
  let run := LocalExecutorAgent_run (Sample.registry Sample.silent_browser)
                                    (Js.lit "title of example.com") in
  exists r,
    Eff.completion run = Normal r
    /\ success r = false
    /\ error r = None
    /\ normalized r = false.
Proof.
  eexists. vm_compute. repeat split.
Qed.

(** C5 (amended): every result either engine returns with [success] true
    has a message; every result with [success] false has an error,
    provided the failures the PlaywrightBrowser tool reports carry an
    error value (the legacy agent copies it). *)
Theorem C5_results_are_normalized
        (w : World) (engine : Js.str) (caps : Capabilities) (tools : ToolRegistry)
        (task : Js.str) (options : Options) (tr : list Event) (r : ExecutionResult) :
  (forall t, registry_get (Js.lit "PlaywrightBrowser") tools = Some t -> reports_errors t) ->
  runEngine w engine caps tools task options = (tr, Normal r) ->
  normalized r = true
  /\ (success r = true -> populated (message r) = true).
Proof.
  intros Ht. revert tr r.
  change (returns (fun r => normalized r = true
                            /\ (success r = true -> populated (message r) = true))
                  (runEngine w engine caps tools task options)).
  unfold runEngine. destruct (Js.eqb engine native).
  - unfold nativeEngine. apply returns_then; intros _.
    destruct (NativeSessionManager caps) as [mgr|]; [|apply returns_throw].
    apply returns_then; intros _. cbv zeta.
    apply returns_then; intros sid. apply returns_then; intros _.
    apply exchange_normalized.
  - unfold legacyEngine. apply returns_then; intros _.
    destruct (Session caps); [|apply returns_throw].
    apply returns_then; intros _.
    destruct (Agent caps) as [cls|]; [|apply returns_throw].
    do 3 (apply returns_then; intros _).
    eapply returns_bind;
      [|intros a Ha; apply returns_then; intros _; apply returns_ret; exact Ha].
    unfold LocalExecutorAgent_run. apply returns_then; intros _.
    apply returns_try_catch; [|intros e; apply returns_then; intros _; apply returns_throw].
    eapply returns_bind;
      [|intros a Ha; apply returns_then; intros _; apply returns_ret; exact Ha].
    destruct (is_browser_task task).
    + destruct (registry_get (Js.lit "PlaywrightBrowser") tools) as [tool|] eqn:Hg.
      * apply browse_normalized. apply Ht. reflexivity.
      * apply returns_ret. split; [reflexivity|discriminate].
    + do 2 (apply returns_then; intros _). apply returns_ret. split; [reflexivity|intros _; reflexivity].
Qed.

Lemma C5_results_are_normalized_witness :
  let r := mkResult true (Some (Js.lit "Page title: Example Domain"))
                    (Some (Js.lit "Example Domain")) None None None in
  normalized r = true /\ (success r = true -> populated (message r) = true).
Proof.
  cbv zeta.
  apply (@C5_results_are_normalized
           (Sample.local_world None) legacy
           (mkCapabilities (Some Sample.agent) (Some tt) (Some tt) (Some Sample.manager))
           (Sample.registry Sample.browser)
           (Js.lit "title of example.com") (Sample.opts "legacy")
           (Eff.trace
              (runEngine (Sample.local_world None) legacy
                 (mkCapabilities (Some Sample.agent) (Some tt) (Some tt)
                                 (Some Sample.manager))
                 (Sample.registry Sample.browser)
                 (Js.lit "title of example.com") (Sample.opts "legacy")))).
  - intros t Hg. injection Hg as <-.
    intros [u|] res Hres Hs; cbn in Hres; injection Hres as <-; discriminate.
  - reflexivity.
Defined.

(* ===================================================================== *)
(** ** Further properties of the command *)
(* ===================================================================== *)

(** *** How a run ends *)

Section ExitsWith.
Context {A B : Type}.
Variable q : Z -> Prop.

Lemma exits_ret (a : A) : exits_with q (Eff.ret a).
Proof. intros n E. discriminate. Qed.

Lemma exits_throw (e : JsError) : exits_with q (@Eff.throw A e).
Proof. intros n E. discriminate. Qed.

Lemma exits_emit (e : Event) : exits_with q (Eff.emit e).
Proof. intros n E. discriminate. Qed.

Lemma exits_call (e : Event) (o : Outcome A) : exits_with q (Eff.call e o).
Proof. intros n E. destruct o; discriminate. Qed.

Lemma exits_exit (n : Z) : q n -> exits_with q (@Eff.process_exit A n).
Proof. intros Hn k E. inversion E; subst. exact Hn. Qed.

Lemma exits_bind (m : Eff.t A) (f : A -> Eff.t B) :
  exits_with q m -> (forall a, exits_with q (f a)) -> exits_with q (Eff.bind m f).
Proof.
  unfold exits_with. destruct m as [t [a|e|n]]; cbn; intros Hm Hf k E.
  - specialize (Hf a k). destruct (f a) as [t' c]. cbn in *. auto.
  - discriminate.
  - apply Hm. inversion E; reflexivity.
Qed.

Lemma exits_try_catch (m : Eff.t A) (h : JsError -> Eff.t A) :
  exits_with q m -> (forall e, exits_with q (h e)) -> exits_with q (Eff.try_catch m h).
Proof.
  unfold exits_with. destruct m as [t [a|e|n]]; cbn; intros Hm Hh k E.
  - discriminate.
  - specialize (Hh e k). destruct (h e) as [t' c]. cbn in *. auto.
  - apply Hm. exact E.
Qed.

Lemma exits_try_finally (m : Eff.t A) (fin : Eff.t unit) :
  exits_with q m -> exits_with q fin -> exits_with q (Eff.try_finally m fin).
Proof.
  unfold exits_with. destruct m as [t [a|e|n]]; destruct fin as [t' [u|e'|n']]; cbn;
    intros Hm Hf k E; try discriminate; inversion E; subst;
    first [apply Hm; reflexivity | apply Hf; reflexivity].
Qed.
End ExitsWith.

Lemma exits_when (q : Z -> Prop) (b : bool) (m : Eff.t unit) :
  exits_with q m -> exits_with q (Eff.when b m).
Proof. destruct b; cbn; auto. intros _. apply exits_ret. Qed.

Lemma exits_for_each {A} (q : Z -> Prop) (l : list A) (f : A -> Eff.t unit) :
  (forall x, exits_with q (f x)) -> exits_with q (Eff.for_each l f).
Proof.
  intros Hf. induction l as [|x l IH]; cbn [Eff.for_each].
  - apply exits_ret.
  - apply exits_bind; auto.
Qed.

Ltac exits_step :=
  first
    [ apply exits_ret
    | apply exits_throw
    | apply exits_emit
    | apply exits_exit; reflexivity
    | apply exits_call
    | apply exits_when
    | apply exits_for_each; intros
    | apply exits_try_catch; [|intros]
    | apply exits_try_finally
    | apply exits_bind; [|intros]
    | match goal with
      | |- exits_with _ (if ?b then _ else _) => destruct b
      | |- exits_with _ (match ?x with _ => _ end) => destruct x
      end ].
Ltac exits_tac := repeat exits_step.

Lemma validateEngine_exits (options : Options) :
  exits_with code_1 (validateEngine options).
Proof. unfold validateEngine, console_error. exits_tac. Qed.

Lemma resolveRuntime_exits (w : World) : exits_with code_1 (resolveRuntime w).
Proof. unfold resolveRuntime, console_error, console_log. exits_tac. Qed.

Lemma resolveLoader_exits (w : World) : exits_with code_1 (resolveLoader w).
Proof. unfold resolveLoader, console_warn. exits_tac. Qed.

Lemma loadTools_exits (w : World) (options : Options)
      (init : option (Js.str -> Outcome ToolRegistry)) :
  exits_with code_1 (loadTools w options init).
Proof. unfold loadTools, console_log. exits_tac. Qed.

Lemma LocalExecutorAgent_run_exits (tools : ToolRegistry) (task : Js.str) :
  exits_with code_1 (LocalExecutorAgent_run tools task).
Proof. unfold LocalExecutorAgent_run, browse, tool_execute, agent_log. exits_tac. Qed.

Lemma runEngine_exits (w : World) (engine : Js.str) (caps : Capabilities)
      (tools : ToolRegistry) (task : Js.str) (options : Options) :
  exits_with code_1 (runEngine w engine caps tools task options).
Proof.
  unfold runEngine. destruct (Js.eqb engine native).
  - unfold nativeEngine, exchange, console_log. exits_tac.
  - unfold legacyEngine, console_log.
    repeat first [apply LocalExecutorAgent_run_exits | exits_step].
Qed.

Lemma report_exits (w : World) (r : ExecutionResult) : exits_with code_1 (report w r).
Proof. unfold report, console_log. exits_tac. Qed.

Lemma runCommand_body_exits (w : World) (task : Js.str) (options : Options) :
  exits_with code_1
    (engine <- validateEngine options ;;
     console_log (Glyph.rocket ++ Js.lit " Running Acrobi task: "
                  ++ Js.dquote ++ task ++ Js.dquote) ;;
     console_log (Glyph.wrench ++ Js.lit " Using engine: " ++ Js.toUpperCase engine) ;;
     caps <- resolveRuntime w ;;
     initializeTools <- resolveLoader w ;;
     console_log (Glyph.wrench ++ Js.lit " Initializing Cortex runtime...") ;;
     loadedTools <- loadTools w options initializeTools ;;
     result <- runEngine w engine caps loadedTools task options ;;
     report w result).
Proof.
  unfold console_log.
  repeat first
    [ apply validateEngine_exits | apply resolveRuntime_exits | apply resolveLoader_exits
    | apply loadTools_exits | apply runEngine_exits | apply report_exits
    | apply exits_emit | apply exits_bind; [|intros] ].
Qed.

Lemma top_level_handler_exits (options : Options) (e : JsError) :
  Eff.completion (top_level_handler options e) = Exited 1.
Proof. unfold top_level_handler. destruct (opt_verbose options); reflexivity. Qed.

(** X1: no error escapes [runCommand]: whatever the collaborators do, the
    command either returns (exit code 0) or ends the process with exit
    code 1. *)
Theorem runCommand_returns_or_exits_1 (w : World) (task : Js.str) (options : Options) :
  Eff.completion (runCommand w task options) = Normal tt
  \/ Eff.completion (runCommand w task options) = Exited 1.
Proof.
  pose proof (runCommand_body_exits w task options) as Hb.
  unfold runCommand.
  set (body := Eff.bind (validateEngine options) _) in *.
  destruct body as [t [[]|e|n]]; unfold Eff.try_catch.
  - left. reflexivity.
  - right. pose proof (top_level_handler_exits options e) as H.
    destruct (top_level_handler options e) as [t' c]. exact H.
  - right. rewrite (Hb n eq_refl). reflexivity.
Qed.

Lemma bind_normal_inv {A B} (m : Eff.t A) (f : A -> Eff.t B) (b : B) :
  Eff.completion (Eff.bind m f) = Normal b ->
  exists t a, m = (t, Normal a) /\ Eff.completion (f a) = Normal b.
Proof.
  destruct m as [t [a|e|n]]; cbn; try discriminate.
  intros H. exists t, a. split; [reflexivity|].
  destruct (f a) as [t' c]. exact H.
Qed.

Lemma try_catch_normal_inv {A} (m : Eff.t A) (h : JsError -> Eff.t A) (a : A) :
  (forall e, Eff.completion (h e) <> Normal a) ->
  Eff.completion (Eff.try_catch m h) = Normal a ->
  Eff.completion m = Normal a.
Proof.
  intros Hh. destruct m as [t [x|e|n]]; cbn; auto.
  specialize (Hh e). destruct (h e) as [t' c]. cbn in *. intros H. contradiction.
Qed.

Lemma validateEngine_normal_inv (options : Options) (t : list Event) (engine : Js.str) :
  validateEngine options = (t, Normal engine) ->
  engine = engine_of options /\ valid_engine (engine_of options) = true.
Proof.
  unfold validateEngine. destruct (valid_engine (engine_of options)); cbn.
  - intros H. inversion H. auto.
  - discriminate.
Qed.

Lemma report_completion (w : World) (r : ExecutionResult) :
  Eff.completion (report w r) = if success r then Normal tt else Exited 1.
Proof.
  unfold report. destruct (success r); [|reflexivity].
  destruct (truthy (title r)), (truthy (message r)), (truthy (response r)),
           (truthy (note r)); reflexivity.
Qed.

(** X2: the command returns (exit code 0) exactly when the engine was
    valid, the runtime resolved, the tools loaded, and the engine returned
    a result whose [success] is true; every other run ends with exit code
    1 (by X1). *)
Theorem runCommand_returns_iff_success (w : World) (task : Js.str) (options : Options) :
  Eff.completion (runCommand w task options) = Normal tt
  <-> exists t1 caps t2 init t3 tools tr r,
        valid_engine (engine_of options) = true
        /\ resolveRuntime w = (t1, Normal caps)
        /\ resolveLoader w = (t2, Normal init)
        /\ loadTools w options init = (t3, Normal tools)
        /\ runEngine w (engine_of options) caps tools task options = (tr, Normal r)
        /\ success r = true.
Proof.
  split.
  - intros H. unfold runCommand in H.
    apply try_catch_normal_inv in H;
      [|intros e; rewrite top_level_handler_exits; discriminate].
    apply bind_normal_inv in H as (t0 & engine & H0 & H).
    apply validateEngine_normal_inv in H0 as [-> Hv].
    apply bind_normal_inv in H as (? & ? & _ & H).
    apply bind_normal_inv in H as (? & ? & _ & H).
    apply bind_normal_inv in H as (t1 & caps & H1 & H).
    apply bind_normal_inv in H as (t2 & init & H2 & H).
    apply bind_normal_inv in H as (? & ? & _ & H).
    apply bind_normal_inv in H as (t3 & tools & H3 & H).
    apply bind_normal_inv in H as (tr & r & H4 & H).
    rewrite report_completion in H.
    exists t1, caps, t2, init, t3, tools, tr, r.
    repeat split; auto. destruct (success r); [reflexivity|discriminate].
  - intros (t1 & caps & t2 & init & t3 & tools & tr & r & Hv & H1 & H2 & H3 & H4 & Hs).
    rewrite (runCommand_after_setup w task options Hv H1 H2 H3), H4.
    rewrite completion_prepend, bind_normal.
    pose proof (report_completion w r) as Hr. rewrite Hs in Hr.
    unfold Eff.prepend, Eff.try_catch. cbn [Eff.completion snd] in *.
    rewrite Hr. reflexivity.
Qed.

(** *** What each engine touches *)

Lemma only_weaken {A} (p q : Event -> bool) (m : Eff.t A) :
  (forall e, p e = true -> q e = true) -> only p m -> only q m.
Proof. intros H. unfold only. apply forallb_weaken. exact H. Qed.

Lemma validateEngine_common (options : Options) : only is_common (validateEngine options).
Proof. unfold validateEngine, console_error. only_tac. Qed.

Lemma resolveRuntime_common (w : World) : only is_common (resolveRuntime w).
Proof. unfold resolveRuntime, console_error, console_log. only_tac. Qed.

Lemma resolveLoader_common (w : World) : only is_common (resolveLoader w).
Proof. unfold resolveLoader, console_warn. only_tac. Qed.

Lemma loadTools_common (w : World) (options : Options)
      (init : option (Js.str -> Outcome ToolRegistry)) :
  only is_common (loadTools w options init).
Proof. unfold loadTools, console_log. only_tac. Qed.

Lemma report_common (w : World) (r : ExecutionResult) : only is_common (report w r).
Proof. unfold report, console_log. only_tac. Qed.

Lemma top_level_handler_common (options : Options) (e : JsError) :
  only is_common (top_level_handler options e).
Proof. unfold top_level_handler, console_error. only_tac. Qed.

Lemma nativeEngine_events (w : World) (caps : Capabilities) (tools : ToolRegistry)
      (task : Js.str) (options : Options) :
  only common_or_native (nativeEngine w caps tools task options).
Proof. unfold nativeEngine, exchange, console_log. only_tac. Qed.

Lemma legacyEngine_events (w : World) (caps : Capabilities) (tools : ToolRegistry)
      (task : Js.str) :
  only common_or_legacy (legacyEngine w caps tools task).
Proof.
  unfold legacyEngine, LocalExecutorAgent_run, browse, tool_execute, console_log, agent_log.
  only_tac.
Qed.

Lemma only_prepend {A} (p : Event -> bool) (tr : list Event) (m : Eff.t A) :
  forallb p tr = true -> only p m -> only p (Eff.prepend tr m).
Proof.
  unfold only. rewrite trace_prepend, forallb_app. now intros -> ->.
Qed.

Lemma runCommand_only (p : Event -> bool) (w : World) (task : Js.str) (options : Options) :
  (forall e, is_common e = true -> p e = true) ->
  (forall caps tools,
      only p (runEngine w (engine_of options) caps tools task options)) ->
  only p (runCommand w task options).
Proof.
  intros Hc He. unfold runCommand.
  apply only_try_catch;
    [|intros e; (apply only_weaken with (p := is_common); [exact Hc|apply top_level_handler_common])].
  destruct (validateEngine options) as [t0 [engine|e|n]] eqn:E0.
  - pose proof (validateEngine_common options) as H0. rewrite E0 in H0.
    apply validateEngine_normal_inv in E0 as [-> _].
    rewrite bind_normal.
    apply only_prepend;
      [revert H0; unfold only; cbn [Eff.trace fst]; apply forallb_weaken; exact Hc|].
    unfold console_log.
    repeat first
      [ (apply only_weaken with (p := is_common); [exact Hc|apply resolveRuntime_common])
      | (apply only_weaken with (p := is_common); [exact Hc|apply resolveLoader_common])
      | (apply only_weaken with (p := is_common); [exact Hc|apply loadTools_common])
      | (apply only_weaken with (p := is_common); [exact Hc|apply report_common])
      | apply He
      | apply only_emit; apply Hc; reflexivity
      | apply only_bind; [|intros] ].
  - pose proof (validateEngine_common options) as H0. rewrite E0 in H0.
    apply only_weaken with (p := is_common); [exact Hc|exact H0].
  - pose proof (validateEngine_common options) as H0. rewrite E0 in H0.
    apply only_weaken with (p := is_common); [exact Hc|exact H0].
Qed.

(** X3: the two engines are exclusive.  A run with engine native performs
    no call on the legacy session, the agent or a tool; any other run
    performs no call on the session manager. *)
Theorem engines_are_exclusive (w : World) (task : Js.str) (options : Options) :
  (engine_of options = native ->
   filter is_legacy_event (Eff.trace (runCommand w task options)) = [])
  /\ (engine_of options <> native ->
      filter is_native_event (Eff.trace (runCommand w task options)) = []).
Proof.
  split; intros He.
  - apply (filter_nil_of_forallb common_or_native); [now intros []|].
    apply runCommand_only.
    + intros e H. unfold common_or_native. now rewrite H.
    + intros caps tools. unfold runEngine. rewrite He, eqb_refl.
      apply nativeEngine_events.
  - apply (filter_nil_of_forallb common_or_legacy); [now intros []|].
    apply runCommand_only.
    + intros e H. unfold common_or_legacy. now rewrite H.
    + intros caps tools. unfold runEngine.
      destruct (Js.eqb (engine_of options) native) eqn:E.
      * apply eqb_eq in E. contradiction.
      * apply legacyEngine_events.
Qed.

Lemma engines_are_exclusive_witness :
  filter is_legacy_event
    (Eff.trace (runCommand (Sample.local_world (Some (Sample.loader Sample.browser)))
                           (Js.lit "title of example.com") (Sample.opts "native"))) = []
  /\ filter is_native_event
       (Eff.trace (runCommand (Sample.local_world (Some (Sample.loader Sample.browser)))
                              (Js.lit "title of example.com") (Sample.opts "legacy"))) = [].
Proof.
  split.
  - apply (proj1 (engines_are_exclusive
                    (Sample.local_world (Some (Sample.loader Sample.browser)))
                    (Js.lit "title of example.com") (Sample.opts "native"))).
    reflexivity.
  - apply (proj2 (engines_are_exclusive
                    (Sample.local_world (Some (Sample.loader Sample.browser)))
                    (Js.lit "title of example.com") (Sample.opts "legacy"))).
    discriminate.
Defined.

(** *** The order of the imports *)

Lemma trace_bind {A B} (m : Eff.t A) (f : A -> Eff.t B) :
  Eff.trace (Eff.bind m f)
  = Eff.trace m ++ match Eff.completion m with
                   | Normal a => Eff.trace (f a)
                   | _ => []
                   end.
Proof.
  destruct m as [t [a|e|n]]; cbn; rewrite ?app_nil_r; try reflexivity.
  now destruct (f a).
Qed.

Lemma trace_try_catch {A} (m : Eff.t A) (h : JsError -> Eff.t A) :
  Eff.trace (Eff.try_catch m h)
  = Eff.trace m ++ match Eff.completion m with
                   | Thrown e => Eff.trace (h e)
                   | _ => []
                   end.
Proof.
  destruct m as [t [a|e|n]]; cbn; rewrite ?app_nil_r; try reflexivity.
  now destruct (h e).
Qed.

Lemma not_import_filter (l : list Event) :
  forallb not_import l = true -> filter is_import l = [].
Proof. apply filter_nil_of_forallb. intros x Hx. now apply negb_true_iff. Qed.

Lemma after_discovery_not_import
      (w : World) (task engine : Js.str) (options : Options) (caps : Capabilities)
      (init : option (Js.str -> Outcome ToolRegistry)) :
  only not_import
    (console_log (Glyph.wrench ++ Js.lit " Initializing Cortex runtime...") ;;
     loadedTools <- loadTools w options init ;;
     result <- runEngine w engine caps loadedTools task options ;;
     report w result).
Proof.
  unfold loadTools, runEngine, nativeEngine, exchange, legacyEngine,
    LocalExecutorAgent_run, browse, tool_execute, report,
    console_log, agent_log.
  only_tac.
Qed.

Lemma top_level_handler_not_import (options : Options) (e : JsError) :
  only not_import (top_level_handler options e).
Proof. unfold top_level_handler, console_error. only_tac. Qed.

Lemma resolveRuntime_imports (w : World) :
  filter is_import (Eff.trace (resolveRuntime w)) = cortex_imports w
  /\ (runtime_resolves w = true ->
      exists caps, Eff.completion (resolveRuntime w) = Normal caps)
  /\ (runtime_resolves w = false -> Eff.completion (resolveRuntime w) = Exited 1).
Proof.
  unfold resolveRuntime, cortex_imports, runtime_resolves.
  destruct (import_local_cortex w) as [m|];
    [|destruct (import_package_cortex w) as [m|]];
    (split; [reflexivity|split; intros H; try discriminate; try reflexivity]);
    eexists; reflexivity.
Qed.

(** X4: the imports of a run, in order.  A rejected engine imports
    nothing.  Otherwise the colocated runtime is tried once, the package
    only after the colocated import failed; the loader is looked for only
    once the runtime has resolved, again the colocated one first and the
    package one only after it failed; no source is tried twice. *)
Theorem import_attempts (w : World) (task : Js.str) (options : Options) :
  filter is_import (Eff.trace (runCommand w task options))
  = if valid_engine (engine_of options)
    then cortex_imports w ++ (if runtime_resolves w then loader_imports w else [])
    else [].
Proof.
  destruct (valid_engine (engine_of options)) eqn:Hv.
  - unfold runCommand. rewrite trace_try_catch, filter_app.
    match goal with
    | |- _ ++ filter _ (match ?c with _ => _ end) = _ =>
        assert (H : filter is_import
                      match c with
                      | Thrown e => Eff.trace (top_level_handler options e)
                      | _ => []
                      end = [])
    end.
    { match goal with |- context [match ?c with _ => _ end] => destruct c end;
        try reflexivity.
      apply not_import_filter, top_level_handler_not_import. }
    rewrite H, app_nil_r. clear H.
    rewrite (validateEngine_valid _ Hv), bind_normal, prepend_nil.
    unfold console_log at 1 2. unfold Eff.emit.
    rewrite !bind_normal, prepend_prepend, trace_prepend, filter_app.
    cbn [app filter is_import].
    assert (HK : forall caps,
               filter is_import
                 (Eff.trace
                    (initializeTools <- resolveLoader w ;;
                     console_log (Glyph.wrench ++ Js.lit " Initializing Cortex runtime...") ;;
                     loadedTools <- loadTools w options initializeTools ;;
                     result <- runEngine w (engine_of options) caps loadedTools
                                         task options ;;
                     report w result))
               = loader_imports w).
    { intros caps. rewrite trace_bind, filter_app.
      assert (T : forall init,
                 filter is_import
                   (Eff.trace
                      (console_log (Glyph.wrench ++ Js.lit " Initializing Cortex runtime...") ;;
                       loadedTools <- loadTools w options init ;;
                       result <- runEngine w (engine_of options) caps loadedTools
                                           task options ;;
                       report w result)) = []).
      { intros init. apply not_import_filter, after_discovery_not_import. }
      unfold resolveLoader, loader_imports, console_warn.
      destruct (import_local_loader w) as [l|];
        [|destruct (import_package_loader w) as [l|]];
        cbn [Eff.bind Eff.emit Eff.ret Eff.trace Eff.completion fst snd app
               filter is_import];
        rewrite T; reflexivity. }
    rewrite trace_bind, filter_app.
    destruct (resolveRuntime_imports w) as (Ht & Hyes & Hno). rewrite Ht.
    destruct (runtime_resolves w).
    + destruct (Hyes eq_refl) as [caps Hc]. rewrite Hc. now rewrite HK.
    + rewrite (Hno eq_refl). reflexivity.
  - unfold runCommand, validateEngine. rewrite Hv. reflexivity.
Qed.

(** *** Failures around the session and the cleanup *)

Lemma try_catch_thrown {A} (t : list Event) (e : JsError) (h : JsError -> Eff.t A) :
  Eff.try_catch (t, Thrown e) h = Eff.prepend t (h e).
Proof. unfold Eff.try_catch, Eff.prepend. now destruct (h e). Qed.

Lemma top_level_handler_eq (options : Options) (e : JsError) :
  top_level_handler options e = (handler_trace options e, Exited 1).
Proof.
  unfold top_level_handler, handler_trace. destruct (opt_verbose options); reflexivity.
Qed.

(** X5: when [createSession] throws, there is no session to clean up: the
    run goes from the call straight to the top-level handler; it sends no
    message, deactivates nothing, and exits with code 1. *)
Theorem createSession_failure_is_fatal
        (w : World) (task : Js.str) (options : Options)
        (tr1 tr2 tr3 : list Event) (caps : Capabilities)
        (init : option (Js.str -> Outcome ToolRegistry)) (tools : ToolRegistry)
        (mgr : SessionManager) (e : JsError) :
  engine_of options = native ->
  resolveRuntime w = (tr1, Normal caps) ->
  resolveLoader w = (tr2, Normal init) ->
  loadTools w options init = (tr3, Normal tools) ->
  NativeSessionManager caps = Some mgr ->
  createSession mgr (map descriptor tools) (session_metadata w) = Throws e ->
  runCommand w task options
  = (setup_trace task native tr1 tr2 tr3 ++ native_start w tools ++ handler_trace options e,
     Exited 1)
  /\ filter is_exchange_event (Eff.trace (runCommand w task options)) = [].
Proof.
  intros He H1 H2 H3 Hm Hc.
  assert (Hv : valid_engine (engine_of options) = true) by (rewrite He; reflexivity).
  pose proof (setup_trace_setup w task options H1 H2 H3) as Hs.
  assert (E : runCommand w task options
              = (setup_trace task native tr1 tr2 tr3 ++ native_start w tools
                 ++ handler_trace options e, Exited 1)).
  { rewrite (runCommand_after_setup w task options Hv H1 H2 H3).
    unfold runEngine. rewrite He. change (Js.eqb native native) with true. cbv iota.
    unfold nativeEngine. rewrite Hm. fold (session_metadata w). cbv zeta. rewrite Hc.
    unfold console_log, Eff.emit, Eff.call.
    rewrite !bind_normal, !prepend_prepend, bind_thrown.
    rewrite prepend_pair, bind_thrown, try_catch_thrown, top_level_handler_eq, !prepend_pair.
    unfold native_start. rewrite <- !app_assoc. reflexivity. }
  split; [exact E|].
  rewrite E. cbn [Eff.trace fst]. rewrite !filter_app.
  rewrite He in Hs.
  rewrite (filter_nil_of_forallb is_setup is_exchange_event _ (fun x => ltac:(now destruct x)) Hs).
  unfold handler_trace. destruct (opt_verbose options); reflexivity.
Qed.

Lemma createSession_failure_is_fatal_witness :
  filter is_exchange_event
    (Eff.trace (runCommand (Scenario.world_with Sample.agent Scenario.refusing_manager)
                           (Js.lit "say hello") (Sample.opts "native"))) = [].
Proof.
  refine (proj2 (@createSession_failure_is_fatal
                   (Scenario.world_with Sample.agent Scenario.refusing_manager)
                   (Js.lit "say hello") (Sample.opts "native")
                   [Import LocalCortex] Scenario.no_loader []
                   (Scenario.caps_with Sample.agent Scenario.refusing_manager)
                   None [] Scenario.refusing_manager (Error_ (Js.lit "quota exceeded"))
                   eq_refl eq_refl eq_refl eq_refl eq_refl eq_refl)).
Defined.

(** X6: a failure of [deactivateSession] replaces the outcome of the
    exchange.  Whether [sendMessage] returned or threw, the error that
    reaches the top-level handler is the one of the deactivation; no
    result is reported and the process exits with code 1. *)
Theorem deactivation_failure_replaces_result
        (w : World) (task : Js.str) (options : Options)
        (tr1 tr2 tr3 : list Event) (caps : Capabilities)
        (init : option (Js.str -> Outcome ToolRegistry)) (tools : ToolRegistry)
        (mgr : SessionManager) (sid : Js.str) (e : JsError) :
  engine_of options = native ->
  resolveRuntime w = (tr1, Normal caps) ->
  resolveLoader w = (tr2, Normal init) ->
  loadTools w options init = (tr3, Normal tools) ->
  NativeSessionManager caps = Some mgr ->
  createSession mgr (map descriptor tools) (session_metadata w) = Returns sid ->
  deactivateSession mgr sid = Throws e ->
  runCommand w task options
  = (setup_trace task native tr1 tr2 tr3 ++ native_start w tools
     ++ [ConsoleLog (Js.lit "Created native session: " ++ sid);
         SendMessage sid task system_directive]
     ++ exchange_mid mgr sid task options
     ++ [DeactivateSession sid]
     ++ handler_trace options e,
     Exited 1).
Proof.
  intros He H1 H2 H3 Hm Hc Hd.
  assert (Hv : valid_engine (engine_of options) = true) by (rewrite He; reflexivity).
  rewrite (runCommand_after_setup w task options Hv H1 H2 H3).
  unfold runEngine. rewrite He. change (Js.eqb native native) with true. cbv iota.
  rewrite (nativeEngine_created w caps tools task options Hm Hc), exchange_shape.
  unfold exchange_post, exchange_completion. rewrite Hd.
  rewrite prepend_prepend, bind_prepend, bind_thrown.
  rewrite try_catch_prepend, try_catch_thrown, top_level_handler_eq, !prepend_pair.
  unfold native_start. rewrite <- !app_assoc. cbn [app]. rewrite <- !app_assoc.
  reflexivity.
Qed.

Lemma deactivation_failure_replaces_result_witness :
  Eff.completion (runCommand (Scenario.world_with Sample.agent Scenario.stale_manager)
                             (Js.lit "say hello") (Sample.opts "native"))
  = Exited 1.
Proof.
  rewrite (@deactivation_failure_replaces_result
             (Scenario.world_with Sample.agent Scenario.stale_manager)
             (Js.lit "say hello") (Sample.opts "native")
             [Import LocalCortex] Scenario.no_loader []
             (Scenario.caps_with Sample.agent Scenario.stale_manager)
             None [] Scenario.stale_manager (Js.lit "session-1")
             (Error_ (Js.lit "already closed"))
             eq_refl eq_refl eq_refl eq_refl eq_refl eq_refl eq_refl).
  reflexivity.
Defined.

(** X7: a failure of the legacy [agent.cleanup()] is fatal even after a
    run step that returned a result: the result is never reported, the
    top-level handler prints the cleanup's error and the process exits
    with code 1. *)
Theorem legacy_cleanup_failure_is_fatal
        (w : World) (task : Js.str) (options : Options)
        (tr1 tr2 tr3 tr : list Event) (caps : Capabilities)
        (init : option (Js.str -> Outcome ToolRegistry)) (tools : ToolRegistry)
        (cls : AgentClass) (r : ExecutionResult) (e : JsError) :
  engine_of options = legacy ->
  resolveRuntime w = (tr1, Normal caps) ->
  resolveLoader w = (tr2, Normal init) ->
  loadTools w options init = (tr3, Normal tools) ->
  Session caps = Some tt ->
  Agent caps = Some cls ->
  LocalExecutorAgent_run tools task = (tr, Normal r) ->
  agent_cleanup cls = Throws e ->
  runCommand w task options
  = (setup_trace task legacy tr1 tr2 tr3 ++ legacy_start w ++ tr
     ++ [AgentCleanup] ++ handler_trace options e,
     Exited 1).
Proof.
  intros He H1 H2 H3 Hs Ha Hr Hc.
  assert (Hv : valid_engine (engine_of options) = true) by (rewrite He; reflexivity).
  rewrite (runCommand_after_setup w task options Hv H1 H2 H3).
  unfold runEngine. rewrite He. change (Js.eqb legacy native) with false. cbv iota.
  rewrite (legacyEngine_started w caps tools task Hs Ha), Hr, Hc.
  unfold Eff.call. rewrite bind_normal, bind_thrown.
  rewrite !bind_prepend, bind_thrown, !try_catch_prepend, try_catch_thrown,
    top_level_handler_eq, !prepend_pair.
  rewrite <- ?app_assoc. reflexivity.
Qed.

Lemma legacy_cleanup_failure_is_fatal_witness :
  Eff.completion (runCommand (Scenario.world_with Scenario.failing_agent Sample.manager)
                             (Js.lit "say hello") (Sample.opts "legacy"))
  = Exited 1.
Proof.
  rewrite (@legacy_cleanup_failure_is_fatal
             (Scenario.world_with Scenario.failing_agent Sample.manager)
             (Js.lit "say hello") (Sample.opts "legacy")
             [Import LocalCortex] Scenario.no_loader []
             (Eff.trace (LocalExecutorAgent_run [] (Js.lit "say hello")))
             (Scenario.caps_with Scenario.failing_agent Sample.manager)
             None [] Scenario.failing_agent
             (mkResult true
                (Some (Js.lit "Task " ++ Js.dquote ++ Js.lit "say hello" ++ Js.dquote
                       ++ Js.lit " completed successfully (simulated execution)"))
                None None None
                (Some (Js.lit "This is a simulated result. For actual automation, install specific tool packages.")))
             (Error_ (Js.lit "cleanup failed"))
             eq_refl eq_refl eq_refl eq_refl eq_refl eq_refl eq_refl eq_refl).
  reflexivity.
Defined.

(** *** What the pattern captures *)

Lemma take_word_not_space (s : Js.str) : forallb not_space (Spec.take_word s) = true.
Proof.
  induction s as [|c s IH]; cbn; [reflexivity|].
  destruct (Js.is_space c) eqn:Hc; cbn; [reflexivity|].
  unfold not_space at 1. now rewrite Hc.
Qed.

Lemma after_word_ends (s : Js.str) : ends_word (after_word s).
Proof.
  unfold after_word. induction s as [|c s IH]; cbn; [now left|].
  destruct (Js.is_space c) eqn:Hc; cbn.
  - right. eauto.
  - exact IH.
Qed.

Lemma drop_spaces_split (s : Js.str) :
  exists ws, s = ws ++ Spec.drop_spaces s /\ forallb Js.is_space ws = true.
Proof.
  induction s as [|c s (ws & E & Hws)]; cbn.
  - exists []. split; reflexivity.
  - destruct (Js.is_space c) eqn:Hc.
    + exists (c :: ws). cbn. rewrite Hc, Hws. split; [now f_equal|reflexivity].
    + exists []. split; reflexivity.
Qed.

Lemma after_phrase_split (p s rest : Js.str) :
  Spec.after_phrase p s = Some rest ->
  exists occ, s = occ ++ rest /\ Js.toLowerCase occ = p.
Proof.
  revert s. induction p as [|x p IH]; intros s; cbn.
  - intros H. inversion H. exists []. split; reflexivity.
  - destruct s as [|y s]; [discriminate|].
    destruct (N.eqb (Js.lower_unit y) x) eqn:E; [|discriminate].
    intros H. destruct (IH _ H) as (occ & -> & Hocc).
    exists (y :: occ). unfold Js.toLowerCase in *. cbn. apply N.eqb_eq in E.
    rewrite E, Hocc. split; reflexivity.
Qed.

Lemma word_after_space_shape (s t : Js.str) :
  Spec.word_after_space s = Some t ->
  exists ws post,
    s = ws ++ t ++ post
    /\ ws <> [] /\ forallb Js.is_space ws = true
    /\ t <> [] /\ forallb not_space t = true
    /\ ends_word post.
Proof.
  unfold Spec.word_after_space. destruct s as [|c s]; [discriminate|].
  destruct (Js.is_space c) eqn:Hc; [|discriminate].
  destruct (drop_spaces_split (c :: s)) as (ws & E & Hws).
  destruct (Spec.take_word (Spec.drop_spaces (c :: s))) as [|x w] eqn:Hw; [discriminate|].
  intros H. inversion H; subst t. clear H.
  exists ws, (after_word (Spec.drop_spaces (c :: s))).
  rewrite <- Hw, take_word_after_word.
  repeat split.
  - exact E.
  - intros ->. change (c :: s = Spec.drop_spaces (c :: s)) in E.
    rewrite <- E in Hw. cbn [Spec.take_word] in Hw. rewrite Hc in Hw. discriminate.
  - exact Hws.
  - rewrite Hw. discriminate.
  - apply take_word_not_space.
  - apply after_word_ends.
Qed.

Lemma target_of_shape (ps : list Js.str) (s t : Js.str) :
  Spec.target_of ps s = Some t ->
  exists occ ws post,
    s = occ ++ ws ++ t ++ post
    /\ In (Js.toLowerCase occ) ps
    /\ ws <> [] /\ forallb Js.is_space ws = true
    /\ t <> [] /\ forallb not_space t = true
    /\ ends_word post.
Proof.
  induction ps as [|p ps IH]; cbn; [discriminate|].
  destruct (Spec.after_phrase p s) as [rest|] eqn:Hp.
  - destruct (Spec.word_after_space rest) as [t'|] eqn:Hw.
    + intros H. inversion H; subst t'. clear H.
      destruct (after_phrase_split _ _ Hp) as (occ & -> & Hocc).
      destruct (word_after_space_shape _ Hw) as (ws & post & -> & H).
      exists occ, ws, post. rewrite Hocc. split; [reflexivity|]. split; [now left|exact H].
    + intros H. destruct (IH H) as (occ & ws & post & E & Hin & H').
      exists occ, ws, post. split; [exact E|]. split; [now right|exact H'].
  - intros H. destruct (IH H) as (occ & ws & post & E & Hin & H').
    exists occ, ws, post. split; [exact E|]. split; [now right|exact H'].
Qed.

Lemma extract_target_shape (s t : Js.str) :
  Spec.extract_target s = Some t ->
  exists pre occ ws post,
    s = pre ++ occ ++ ws ++ t ++ post
    /\ In (Js.toLowerCase occ) Spec.phrases
    /\ ws <> [] /\ forallb Js.is_space ws = true
    /\ t <> [] /\ forallb not_space t = true
    /\ ends_word post.
Proof.
  induction s as [|c s IH]; cbn [Spec.extract_target].
  - destruct (Spec.target_of Spec.phrases []) as [t'|] eqn:H; [|discriminate].
    intros H'. inversion H'; subst t'.
    destruct (target_of_shape _ _ H) as (occ & ws & post & E & R).
    exists [], occ, ws, post. split; [exact E|exact R].
  - destruct (Spec.target_of Spec.phrases (c :: s)) as [t'|] eqn:H.
    + intros H'. inversion H'; subst t'.
      destruct (target_of_shape _ _ H) as (occ & ws & post & E & R).
      exists [], occ, ws, post. split; [exact E|exact R].
    + intros H'. destruct (IH H') as (pre & occ & ws & post & E & R).
      exists (c :: pre), occ, ws, post. split; [cbn; now rewrite E|exact R].
Qed.

(** X8: whenever the pattern matches a task, group 1 is defined and the
    task reads: some text, one of the four phrases in any letter case, a
    non-empty run of whitespace, the captured word, and then the end of
    the task or whitespace; the word is non-empty and has no whitespace
    in it. *)
Theorem captured_target_shape (task : Js.str) (m : Regex.result) :
  Regex.exec Regex.url_pattern task = Some m ->
  exists target pre occ ws post,
    Regex.group1 m = Some target
    /\ task = pre ++ occ ++ ws ++ target ++ post
    /\ In (Js.toLowerCase occ) Spec.phrases
    /\ ws <> [] /\ forallb Js.is_space ws = true
    /\ target <> [] /\ forallb not_space target = true
    /\ ends_word post.
Proof.
  intros Hm. pose proof (exec_extract_target task) as E. rewrite Hm in E. cbn in E.
  destruct (Spec.extract_target task) as [t|] eqn:Ht; [|discriminate].
  cbn in E. injection E as Hg.
  destruct (extract_target_shape _ Ht) as (pre & occ & ws & post & R).
  exists t, pre, occ, ws, post. split; [exact Hg|exact R].
Qed.

Lemma captured_target_shape_witness :
  exists target pre occ ws post,
    Some (Js.lit "Example.com/a?b") = Some target
    /\ Js.lit "please Go To  Example.com/a?b now" = pre ++ occ ++ ws ++ target ++ post
    /\ In (Js.toLowerCase occ) Spec.phrases
    /\ ws <> [] /\ forallb Js.is_space ws = true
    /\ target <> [] /\ forallb not_space target = true
    /\ ends_word post.
Proof.
  exact (@captured_target_shape
           (Js.lit "please Go To  Example.com/a?b now")
           (Regex.mkMatch (Js.lit "Go To  Example.com/a?b") (Some (Js.lit "Example.com/a?b")))
           eq_refl).
Defined.

(** *** The address given to the browser *)

Lemma goto_url_http (url : Js.str) : Js.startsWith (Js.lit "http") (goto_url url) = true.
Proof.
  unfold goto_url. destruct (Js.startsWith (Js.lit "http") url) eqn:E; [exact E|reflexivity].
Qed.

Lemma browse_gotos (tool : Tool) (task : Js.str) :
  filter is_goto (Eff.trace (browse tool task)) = []
  \/ exists url,
      filter is_goto (Eff.trace (browse tool task)) = [ToolExecute (Goto (goto_url url))].
Proof.
  destruct (Regex.exec Regex.url_pattern task) as [m|] eqn:Hm.
  - destruct (Regex.group1 m) as [url|] eqn:Hg.
    + right. exists url. exact (browse_goto_once tool task Hm Hg).
    + left. unfold browse. rewrite Hm, Hg. reflexivity.
  - left. unfold browse. rewrite Hm. reflexivity.
Qed.

Lemma run_step_gotos (tools : ToolRegistry) (task : Js.str) :
  filter is_goto (Eff.trace (LocalExecutorAgent_run tools task)) = []
  \/ exists url,
      filter is_goto (Eff.trace (LocalExecutorAgent_run tools task))
      = [ToolExecute (Goto (goto_url url))].
Proof.
  unfold LocalExecutorAgent_run.
  destruct (is_browser_task task); [|left; reflexivity].
  destruct (registry_get (Js.lit "PlaywrightBrowser") tools) as [tool|]; [|left; reflexivity].
  assert (E : forall m : Eff.t ExecutionResult,
             filter is_goto
               (Eff.trace
                  (agent_log (Js.lit "Starting local task execution...") ;;
                   Eff.try_catch
                     (result <- m ;;
                      agent_log (Js.lit "Task execution completed") ;;
                      Eff.ret result)
                     (fun error =>
                        Eff.emit (AgentLog (Js.lit "Error in task execution: "
                                            ++ error_toString error)
                                           (Some (Js.lit "error"))) ;;
                        Eff.throw error)))
             = filter is_goto (Eff.trace m)).
  { intros [t [r|e|n]]; cbn; rewrite ?filter_app; cbn; rewrite ?app_nil_r; reflexivity. }
  rewrite E. apply browse_gotos.
Qed.

(** X9: the run step calls [goto] at most once, and every address it
    gives to [goto] begins with "http". *)
Theorem goto_addresses_begin_with_http (tools : ToolRegistry) (task : Js.str) :
  List.length (filter is_goto (Eff.trace (LocalExecutorAgent_run tools task))) <= 1
  /\ forall u,
       In (ToolExecute (Goto u)) (Eff.trace (LocalExecutorAgent_run tools task)) ->
       Js.startsWith (Js.lit "http") u = true.
Proof.
  destruct (run_step_gotos tools task) as [E|[url E]].
  - split; [rewrite E; cbn; lia|].
    intros u Hin.
    assert (H : In (ToolExecute (Goto u))
                   (filter is_goto (Eff.trace (LocalExecutorAgent_run tools task))))
      by (apply filter_In; split; [exact Hin|reflexivity]).
    rewrite E in H. contradiction.
  - split; [rewrite E; cbn; lia|].
    intros u Hin.
    assert (H : In (ToolExecute (Goto u))
                   (filter is_goto (Eff.trace (LocalExecutorAgent_run tools task))))
      by (apply filter_In; split; [exact Hin|reflexivity]).
    rewrite E in H. destruct H as [H|[]]. inversion H. apply goto_url_http.
Qed.

Lemma goto_addresses_begin_with_http_witness :
  Js.startsWith (Js.lit "http") (Js.lit "https://example.com") = true.
Proof.
  apply (proj2 (goto_addresses_begin_with_http (Sample.registry Sample.browser)
                  (Js.lit "title of example.com"))).
  cbn. auto 10.
Defined.

(** *** Legacy runs that use no tool *)

(** X10: a legacy task that mentions none of "playwright", "browser",
    "title of" is only simulated, whatever tools are registered: the run
    waits one second, calls no tool, calls the agent's cleanup, reports
    the simulated message with its note, and returns (exit code 0). *)
Theorem legacy_generic_task_is_simulated
        (w : World) (task : Js.str) (options : Options)
        (tr1 tr2 tr3 : list Event) (caps : Capabilities)
        (init : option (Js.str -> Outcome ToolRegistry)) (tools : ToolRegistry)
        (cls : AgentClass) :
  engine_of options = legacy ->
  resolveRuntime w = (tr1, Normal caps) ->
  resolveLoader w = (tr2, Normal init) ->
  loadTools w options init = (tr3, Normal tools) ->
  Session caps = Some tt ->
  Agent caps = Some cls ->
  agent_cleanup cls = Returns tt ->
  is_browser_task task = false ->
  runCommand w task options
  = (setup_trace task legacy tr1 tr2 tr3 ++ legacy_start w
     ++ [AgentLog (Js.lit "Starting local task execution...") None;
         AgentLog (Js.lit "Executing task: " ++ task) None;
         SetTimeout 1000;
         run_completed;
         AgentCleanup]
     ++ report_header w
     ++ [ConsoleLog (Glyph.chart ++ Js.lit " Result:");
         ConsoleLog (Js.lit "   Message: " ++ simulated_message task);
         ConsoleLog (Js.lit "   Note: " ++ simulated_note);
         ConsoleLog (Js.newline ++ Glyph.party ++ Js.lit " Task completed successfully!")],
     Normal tt).
Proof.
  intros He H1 H2 H3 Hs Ha Hc Hb.
  assert (Hv : valid_engine (engine_of options) = true) by (rewrite He; reflexivity).
  rewrite (runCommand_after_setup w task options Hv H1 H2 H3).
  unfold runEngine. rewrite He. change (Js.eqb legacy native) with false. cbv iota.
  rewrite (legacyEngine_started w caps tools task Hs Ha), Hc.
  unfold LocalExecutorAgent_run. rewrite Hb.
  unfold Eff.prepend. cbn. rewrite <- !app_assoc. reflexivity.
Qed.

Lemma legacy_generic_task_is_simulated_witness :
  Eff.completion
    (runCommand (Sample.local_world (Some (Sample.loader Sample.browser)))
                (Js.lit "visit example.com") (Sample.opts "legacy"))
  = Normal tt.
Proof.
  rewrite (@legacy_generic_task_is_simulated
             (Sample.local_world (Some (Sample.loader Sample.browser)))
             (Js.lit "visit example.com") (Sample.opts "legacy")
             [Import LocalCortex] [Import LocalLoader]
             [ConsoleLog (Glyph.hammer_wrench ++ Js.lit "  Loading dynamic tools...");
              InitializeTools Sample.dir]
             (mkCapabilities (Some Sample.agent) (Some tt) (Some tt) (Some Sample.manager))
             (Some (fun _ => Returns (Sample.registry Sample.browser)))
             (Sample.registry Sample.browser) Sample.agent
             eq_refl eq_refl eq_refl eq_refl eq_refl eq_refl eq_refl eq_refl).
  reflexivity.
Defined.

(** X11: a legacy browser task without a registered PlaywrightBrowser
    tool fails as a result, not as an exception: no tool is called, the
    agent's cleanup still runs, the report prints the missing-tool error
    after its header, and the process exits with code 1. *)
Theorem legacy_missing_tool_is_reported
        (w : World) (task : Js.str) (options : Options)
        (tr1 tr2 tr3 : list Event) (caps : Capabilities)
        (init : option (Js.str -> Outcome ToolRegistry)) (tools : ToolRegistry)
        (cls : AgentClass) :
  engine_of options = legacy ->
  resolveRuntime w = (tr1, Normal caps) ->
  resolveLoader w = (tr2, Normal init) ->
  loadTools w options init = (tr3, Normal tools) ->
  Session caps = Some tt ->
  Agent caps = Some cls ->
  agent_cleanup cls = Returns tt ->
  is_browser_task task = true ->
  registry_get (Js.lit "PlaywrightBrowser") tools = None ->
  runCommand w task options
  = (setup_trace task legacy tr1 tr2 tr3 ++ legacy_start w
     ++ [AgentLog (Js.lit "Starting local task execution...") None;
         run_completed;
         AgentCleanup]
     ++ report_header w
     ++ [ConsoleLog (Glyph.cross ++ Js.lit " Error:");
         ConsoleLog (Js.lit "   " ++ tool_not_found);
         ProcessExit 1],
     Exited 1).
Proof.
  intros He H1 H2 H3 Hs Ha Hc Hb Hg.
  assert (Hv : valid_engine (engine_of options) = true) by (rewrite He; reflexivity).
  rewrite (runCommand_after_setup w task options Hv H1 H2 H3).
  unfold runEngine. rewrite He. change (Js.eqb legacy native) with false. cbv iota.
  rewrite (legacyEngine_started w caps tools task Hs Ha), Hc.
  unfold LocalExecutorAgent_run. rewrite Hb, Hg.
  unfold Eff.prepend. cbn. rewrite <- !app_assoc. reflexivity.
Qed.

Lemma legacy_missing_tool_is_reported_witness :
  Eff.completion
    (runCommand (Sample.local_world None)
                (Js.lit "open the browser") (Sample.opts "legacy"))
  = Exited 1.
Proof.
  rewrite (@legacy_missing_tool_is_reported
             (Sample.local_world None)
             (Js.lit "open the browser") (Sample.opts "legacy")
             [Import LocalCortex] Scenario.no_loader []
             (mkCapabilities (Some Sample.agent) (Some tt) (Some tt) (Some Sample.manager))
             None [] Sample.agent
             eq_refl eq_refl eq_refl eq_refl eq_refl eq_refl eq_refl eq_refl eq_refl).
  reflexivity.
Defined.

(** *** Tool discovery in detail *)

Lemma for_each_console_log {A} (l : list A) (g : A -> Js.str) :
  Eff.for_each l (fun x => console_log (g x))
  = (map (fun x => ConsoleLog (g x)) l, Normal tt).
Proof.
  induction l as [|x l IH]; cbn [Eff.for_each map]; [reflexivity|].
  rewrite IH. reflexivity.
Qed.

(** X12: when the loader returns a registry, [loadTools] hands it on
    unchanged; with [--verbose] it prints the number of tools and then
    one line per tool, in the order of the registry, and without it
    nothing about the tools is printed. *)
Theorem loadTools_lists_in_order
        (w : World) (options : Options)
        (init : Js.str -> Outcome ToolRegistry) (tools : ToolRegistry) :
  init (cwd w) = Returns tools ->
  loadTools w options (Some init)
  = ([ConsoleLog (Glyph.hammer_wrench ++ Js.lit "  Loading dynamic tools...");
      InitializeTools (cwd w)]
     ++ (if opt_verbose options
         then ConsoleLog (Js.lit "Found " ++ Js.of_nat (List.length tools)
                          ++ Js.lit " tool(s):")
              :: map tool_line tools
         else []),
     Normal tools).
Proof.
  intros Hi. unfold loadTools. rewrite Hi.
  unfold console_log at 1. unfold Eff.emit, Eff.call. rewrite !bind_normal.
  destruct (opt_verbose options).
  - unfold Eff.when.
    rewrite (for_each_console_log tools
               (fun entry => Js.lit "  - " ++ fst entry ++ Js.lit ": "
                             ++ description (definition (snd entry)))).
    unfold console_log, Eff.emit, Eff.ret.
    repeat (rewrite bind_normal || rewrite prepend_prepend || rewrite prepend_pair).
    rewrite app_nil_r. reflexivity.
  - reflexivity.
Qed.

Lemma loadTools_lists_in_order_witness :
  Eff.trace (loadTools (Sample.local_world None) (mkOptions None true)
                       (Some (fun _ => Returns (Sample.registry Sample.browser))))
  = [ConsoleLog (Glyph.hammer_wrench ++ Js.lit "  Loading dynamic tools...");
     InitializeTools Sample.dir;
     ConsoleLog (Js.lit "Found 1 tool(s):");
     ConsoleLog (Js.lit "  - PlaywrightBrowser: Browser automation")].
Proof.
  rewrite (@loadTools_lists_in_order (Sample.local_world None) (mkOptions None true)
             (fun _ => Returns (Sample.registry Sample.browser))
             (Sample.registry Sample.browser) eq_refl).
  reflexivity.
Defined.

Lemma after_discovery_not_warning
      (w : World) (task engine : Js.str) (options : Options) (caps : Capabilities)
      (init : option (Js.str -> Outcome ToolRegistry)) :
  only not_warning
    (console_log (Glyph.wrench ++ Js.lit " Initializing Cortex runtime...") ;;
     loadedTools <- loadTools w options init ;;
     result <- runEngine w engine caps loadedTools task options ;;
     report w result).
Proof.
  unfold loadTools, runEngine, nativeEngine, exchange, legacyEngine,
    LocalExecutorAgent_run, browse, tool_execute, report,
    console_log, agent_log.
  only_tac.
Qed.

Lemma not_warning_filter (l : list Event) :
  forallb not_warning l = true -> filter is_warning l = [].
Proof. apply filter_nil_of_forallb. intros x Hx. now apply negb_true_iff. Qed.

Lemma top_level_handler_not_warning (options : Options) (e : JsError) :
  only not_warning (top_level_handler options e).
Proof. unfold top_level_handler, console_error. only_tac. Qed.

Lemma resolveRuntime_not_warning (w : World) : only not_warning (resolveRuntime w).
Proof. unfold resolveRuntime, console_error, console_log. only_tac. Qed.

(** X13: the only warning a run can print is the one about dynamic tool
    loading, and it is printed, once, exactly when the engine is valid,
    the runtime resolved and neither loader module could be imported.  A
    loader module that resolves without exporting [initializeTools] gives
    no warning. *)
Theorem warning_iff_no_loader_module (w : World) (task : Js.str) (options : Options) :
  filter is_warning (Eff.trace (runCommand w task options))
  = if valid_engine (engine_of options) && runtime_resolves w && no_loader_module w
    then [ConsoleWarn loader_warning]
    else [].
Proof.
  destruct (valid_engine (engine_of options)) eqn:Hv.
  - unfold runCommand. rewrite trace_try_catch, filter_app.
    match goal with
    | |- _ ++ filter _ (match ?c with _ => _ end) = _ =>
        assert (H : filter is_warning
                      match c with
                      | Thrown e => Eff.trace (top_level_handler options e)
                      | _ => []
                      end = [])
    end.
    { match goal with |- context [match ?c with _ => _ end] => destruct c end;
        try reflexivity.
      apply not_warning_filter, top_level_handler_not_warning. }
    rewrite H, app_nil_r. clear H.
    rewrite (validateEngine_valid _ Hv), bind_normal, prepend_nil.
    unfold console_log at 1 2. unfold Eff.emit.
    rewrite !bind_normal, prepend_prepend, trace_prepend, filter_app.
    cbn [app filter is_warning andb].
    assert (HK : forall caps,
               filter is_warning
                 (Eff.trace
                    (initializeTools <- resolveLoader w ;;
                     console_log (Glyph.wrench ++ Js.lit " Initializing Cortex runtime...") ;;
                     loadedTools <- loadTools w options initializeTools ;;
                     result <- runEngine w (engine_of options) caps loadedTools
                                         task options ;;
                     report w result))
               = if no_loader_module w then [ConsoleWarn loader_warning] else []).
    { intros caps. rewrite trace_bind, filter_app.
      assert (T : forall init,
                 filter is_warning
                   (Eff.trace
                      (console_log (Glyph.wrench ++ Js.lit " Initializing Cortex runtime...") ;;
                       loadedTools <- loadTools w options init ;;
                       result <- runEngine w (engine_of options) caps loadedTools
                                           task options ;;
                       report w result)) = []).
      { intros init. apply not_warning_filter, after_discovery_not_warning. }
      unfold resolveLoader, no_loader_module, console_warn.
      destruct (import_local_loader w) as [l|];
        [|destruct (import_package_loader w) as [l|]];
        cbn [Eff.bind Eff.emit Eff.ret Eff.trace Eff.completion fst snd app
               filter is_warning];
        rewrite T; reflexivity. }
    rewrite trace_bind, filter_app.
    rewrite (not_warning_filter _ (resolveRuntime_not_warning w)). cbn [app].
    destruct (resolveRuntime_imports w) as (_ & Hyes & Hno).
    destruct (runtime_resolves w).
    + destruct (Hyes eq_refl) as [caps Hc]. rewrite Hc. now rewrite HK.
    + rewrite (Hno eq_refl). reflexivity.
  - unfold runCommand, validateEngine. rewrite Hv. reflexivity.
Qed.

(** *** The stack trace, the happy native path, the source of the capabilities *)

Lemma runCommand_quiet_not_stack (w : World) (task : Js.str) (options : Options) :
  opt_verbose options = false ->
  only not_stack (runCommand w task options).
Proof.
  intros Hq.
  unfold runCommand, validateEngine, resolveRuntime, resolveLoader, loadTools,
    runEngine, nativeEngine, exchange, legacyEngine, LocalExecutorAgent_run, browse,
    tool_execute, report, top_level_handler,
    console_log, console_warn, console_error, agent_log.
  rewrite Hq. only_tac.
Qed.

(** X14: a stack trace is printed only under [--verbose]: if a run prints
    the stack of an error, the verbose option was set. *)
Theorem stack_only_when_verbose
        (w : World) (task : Js.str) (options : Options) (e : JsError) :
  In (ConsoleErrorStack e) (Eff.trace (runCommand w task options)) ->
  opt_verbose options = true.
Proof.
  intros Hin. destruct (opt_verbose options) eqn:Hq; [reflexivity|].
  pose proof (runCommand_quiet_not_stack w task options Hq) as H.
  unfold only in H. rewrite forallb_forall in H.
  specialize (H _ Hin). discriminate.
Qed.

Lemma stack_only_when_verbose_witness :
  opt_verbose (mkOptions (Some (Js.lit "native")) true) = true.
Proof.
  apply (@stack_only_when_verbose
           (Sample.package_world Sample.cortex) (Js.lit "say hello")
           (mkOptions (Some (Js.lit "native")) true)
           (Error_ manager_not_available)).
  cbn. auto 20.
Defined.

(** X15: a native run whose session is created, whose message is
    answered and whose session is deactivated returns (exit code 0); it
    reports the fixed message and, unless it is empty, the content of the
    answer. *)
Theorem native_exchange_is_reported
        (w : World) (task : Js.str) (options : Options)
        (tr1 tr2 tr3 : list Event) (caps : Capabilities)
        (init : option (Js.str -> Outcome ToolRegistry)) (tools : ToolRegistry)
        (mgr : SessionManager) (sid : Js.str) (resp : Response) :
  engine_of options = native ->
  resolveRuntime w = (tr1, Normal caps) ->
  resolveLoader w = (tr2, Normal init) ->
  loadTools w options init = (tr3, Normal tools) ->
  NativeSessionManager caps = Some mgr ->
  createSession mgr (map descriptor tools) (session_metadata w) = Returns sid ->
  sendMessage mgr sid task system_directive = Returns resp ->
  deactivateSession mgr sid = Returns tt ->
  runCommand w task options
  = (setup_trace task native tr1 tr2 tr3 ++ native_start w tools
     ++ [ConsoleLog (Js.lit "Created native session: " ++ sid);
         SendMessage sid task system_directive]
     ++ exchange_mid mgr sid task options
     ++ [DeactivateSession sid;
         ConsoleLog (Js.lit "Native session deactivated")]
     ++ report_header w
     ++ [ConsoleLog (Glyph.chart ++ Js.lit " Result:");
         ConsoleLog (Js.lit "   Message: Task completed with native engine")]
     ++ (if Js.truthy (content resp)
         then [ConsoleLog (Js.lit "   Response: " ++ content resp)]
         else [])
     ++ [ConsoleLog (Js.newline ++ Glyph.party ++ Js.lit " Task completed successfully!")],
     Normal tt).
Proof.
  intros He H1 H2 H3 Hm Hc Hsend Hd.
  assert (Hv : valid_engine (engine_of options) = true) by (rewrite He; reflexivity).
  rewrite (runCommand_after_setup w task options Hv H1 H2 H3).
  unfold runEngine. rewrite He. change (Js.eqb native native) with true. cbv iota.
  rewrite (nativeEngine_created w caps tools task options Hm Hc), exchange_shape.
  unfold exchange_post, exchange_completion. rewrite Hd, Hsend.
  rewrite prepend_prepend, bind_prepend, bind_normal, try_catch_prepend.
  unfold report. cbn [success title message response note truthy].
  generalize (exchange_mid mgr sid task options); intros mid.
  destruct (Js.truthy (content resp)); unfold Eff.prepend, native_start, report_header;
    cbn; rewrite <- !app_assoc; cbn; rewrite <- ?app_assoc; reflexivity.
Qed.

Lemma native_exchange_is_reported_witness :
  Eff.completion (runCommand (Scenario.world_with Sample.agent Sample.manager)
                             (Js.lit "say hello") (Sample.opts "native"))
  = Normal tt.
Proof.
  rewrite (@native_exchange_is_reported
             (Scenario.world_with Sample.agent Sample.manager)
             (Js.lit "say hello") (Sample.opts "native")
             [Import LocalCortex] Scenario.no_loader []
             (Scenario.caps_with Sample.agent Sample.manager)
             None [] Sample.manager (Js.lit "session-1")
             (mkResponse (Js.lit "done") None)
             eq_refl eq_refl eq_refl eq_refl eq_refl eq_refl eq_refl eq_refl).
  reflexivity.
Defined.

(** X16: the capabilities of a resolved runtime come from one module: the
    colocated one whenever it can be imported (the package is then not
    consulted), otherwise the package; the agent, session and
    orchestrator are that module's exports, and the session manager is
    bound only from the colocated module. *)
Theorem capabilities_from_one_module
        (w : World) (tr : list Event) (caps : Capabilities) :
  resolveRuntime w = (tr, Normal caps) ->
  exists m,
    Agent caps = exp_Agent m
    /\ Session caps = exp_Session m
    /\ Orchestrator caps = exp_Orchestrator m
    /\ ((import_local_cortex w = Some m
         /\ tr = [Import LocalCortex]
         /\ NativeSessionManager caps = exp_NativeSessionManager m)
        \/ (import_local_cortex w = None
            /\ import_package_cortex w = Some m
            /\ tr = [Import LocalCortex; Import PackageCortex]
            /\ NativeSessionManager caps = None)).
Proof.
  unfold resolveRuntime.
  destruct (import_local_cortex w) as [m|] eqn:Hl;
    [|destruct (import_package_cortex w) as [m|] eqn:Hp]; cbn; intros H;
    inversion H; subst; clear H.
  - exists m. cbn. repeat split. left. repeat split.
  - exists m. cbn. repeat split. right. repeat split.
Qed.

Lemma capabilities_from_one_module_witness :
  exists m,
    Some Sample.agent = exp_Agent m
    /\ Some tt = exp_Session m
    /\ Some tt = exp_Orchestrator m
    /\ ((Some Sample.cortex = Some m
         /\ [Import LocalCortex] = [Import LocalCortex]
         /\ Some Sample.manager = exp_NativeSessionManager m)
        \/ (Some Sample.cortex = None
            /\ None = Some m
            /\ [Import LocalCortex] = [Import LocalCortex; Import PackageCortex]
            /\ Some Sample.manager = None)).
Proof.
  exact (@capabilities_from_one_module
           (mkWorld (Some Sample.cortex) None None None Sample.dir 1000 2500)
           [Import LocalCortex]
           (mkCapabilities (Some Sample.agent) (Some tt) (Some tt) (Some Sample.manager))
           eq_refl).
Defined.

(* ===================================================================== *)
(** ** The configuration commands *)
(* ===================================================================== *)

(** X17: in quiet mode [loadConfig] prints nothing and never ends the
    process or throws: it reads acrobi.json once and returns the parsed
    value, or [null] when the file cannot be read or parsed. *)
Theorem loadConfig_quiet_never_fails (Json : Type) (fw : ConfigWorld Json) :
  loadConfig fw true
  = ([Io.ReadFile (path_resolve (config_cwd fw) (Js.lit "acrobi.json")) (Js.lit "utf-8")],
     Io.Normal
       match read_config fw with
       | Io.Returns content =>
           match json_parse fw content with
           | Io.Returns config => config
           | Io.Throws _ => None
           end
       | Io.Throws _ => None
       end).
Proof.
  unfold loadConfig.
  destruct (read_config fw) as [content|e]; cbn.
  - destruct (json_parse fw content) as [config|e]; cbn; [reflexivity|].
    rewrite andb_false_r. destruct (is_ENOENT e); reflexivity.
  - rewrite andb_false_r. destruct (is_ENOENT e); reflexivity.
Qed.

(** X18: without [quiet], [loadConfig] returns only what was read and
    parsed; every failure ends the process with exit code 1, after the
    not-found hint when the error code is ENOENT and after the error's
    message otherwise.  It never returns [null] for a failure and never
    throws. *)
Theorem loadConfig_fails_loudly (Json : Type) (fw : ConfigWorld Json) :
  let run := loadConfig fw false in
  (forall config,
      Io.result run = Io.Normal config <->
      exists content,
        read_config fw = Io.Returns content
        /\ json_parse fw content = Io.Returns config)
  /\ (forall e,
         (read_config fw = Io.Throws e
          \/ exists content,
              read_config fw = Io.Returns content /\ json_parse fw content = Io.Throws e) ->
         Io.result run = Io.Exited 1
         /\ In (if is_ENOENT e
                then Io.Err (Js.lit "Please run 'acrobi init' to create one in this directory.")
                else Io.Err (Js.lit "Error reading configuration file: " ++ Io.message e))
               (Io.trace run)).
Proof.
  cbv zeta. unfold loadConfig. split.
  - intros config. split.
    + destruct (read_config fw) as [content|e]; cbn.
      * destruct (json_parse fw content) as [c|e] eqn:Hp; cbn.
        -- intros H. inversion H; subst. exists content. split; [reflexivity|exact Hp].
        -- rewrite andb_true_r. destruct (is_ENOENT e); discriminate.
      * rewrite andb_true_r. destruct (is_ENOENT e); discriminate.
    + intros (content & Hr & Hp). rewrite Hr. cbn. rewrite Hp. reflexivity.
  - intros e [Hr|(content & Hr & Hp)]; rewrite Hr; cbn; rewrite ?Hp; cbn;
      rewrite andb_true_r; destruct (is_ENOENT e); cbn; split; auto 10.
Qed.

Lemma loadConfig_fails_loudly_witness :
  Io.result (loadConfig ConfigSample.present false) = Io.Normal (Some 7%Z)
  /\ Io.result (loadConfig ConfigSample.missing false) = Io.Exited 1.
Proof.
  split.
  - apply (proj1 (loadConfig_fails_loudly ConfigSample.present)).
    exists (Js.lit "7"). split; reflexivity.
  - apply (proj2 (loadConfig_fails_loudly ConfigSample.missing)
             (Io.mkError (Some (Js.lit "ENOENT")) (Js.lit "no such file"))).
    left. reflexivity.
Defined.

(** X19: [connectCommand] returns (exit code 0) exactly when a non-empty
    URL was given, [new URL] accepted it and the configuration file was
    written; in every other case the process ends with exit code 1. *)
Theorem connectCommand_outcome (cw : ConnectWorld) (url : option Js.str) :
  Io.result (connectCommand cw url)
  = if truthy url && url_accepted cw (show url)
       && match write_config cw with Io.Returns _ => true | Io.Throws _ => false end
    then Io.Normal tt
    else Io.Exited 1.
Proof.
  unfold connectCommand.
  destruct (truthy url); [|reflexivity].
  destruct (url_accepted cw (show url)); [|reflexivity].
  destruct (write_config cw) as [[]|e]; reflexivity.
Qed.

(** X20: [connectCommand] writes a file only for a given and accepted
    URL, and then exactly one: acrobi.config.json, holding that URL, the
    current time and version 1.0.0. *)
Theorem connectCommand_writes (cw : ConnectWorld) (url : option Js.str) :
  filter is_write (Io.trace (connectCommand cw url))
  = if truthy url && url_accepted cw (show url)
    then [Io.WriteFile (Js.lit "acrobi.config.json")
                       (Io.mkThemeConfig (show url) (now_iso cw) (Js.lit "1.0.0"))]
    else [].
Proof.
  unfold connectCommand.
  destruct (truthy url); [|reflexivity].
  destruct (url_accepted cw (show url)); [|reflexivity].
  destruct (write_config cw) as [[]|e]; reflexivity.
Qed.

Lemma runCommand_returns_iff_success_witness :
  Eff.completion (runCommand (Scenario.world_with Sample.agent Sample.manager)
                             (Js.lit "say hello") (Sample.opts "legacy"))
  = Normal tt.
Proof.
  apply (proj2 (runCommand_returns_iff_success
                  (Scenario.world_with Sample.agent Sample.manager)
                  (Js.lit "say hello") (Sample.opts "legacy"))).
  exists [Import LocalCortex], (Scenario.caps_with Sample.agent Sample.manager),
         Scenario.no_loader, None, [], [].
  eexists. eexists.
  repeat split; reflexivity.
Defined.

(* ===================================================================== *)
(** ** The intent test and the faults of the run step *)
(* ===================================================================== *)





Lemma browse_faults (tool : Tool) (task : Js.str) (tr : list Event) (e : JsError) :
  browse tool task = (tr, Thrown e) ->
  (exists input, def_execute (definition tool) input = Throws e)
  \/ cleanup (definition tool) = Some (Throws e).
Proof.
  unfold browse, tool_execute.
  destruct (Regex.exec Regex.url_pattern task) as [m|] eqn:Hm; [|discriminate].
  destruct (captured_target_shape _ Hm) as (url & _ & _ & _ & _ & Hg & _).
  rewrite Hg.
  destruct (def_execute (definition tool) (Goto (goto_url url))) as [nav|err] eqn:Hnav; cbn.
  - destruct (tr_success nav); [|discriminate].
    destruct (def_execute (definition tool) Title) as [tit|err] eqn:Htit; cbn.
    + destruct (tr_success tit); [|discriminate].
      destruct (cleanup (definition tool)) as [[[]|err]|]; cbn; try discriminate.
      intros H. inversion H; subst. now right.
    + intros H. inversion H; subst. left. eauto.
  - intros H. inversion H; subst. left. eauto.
Qed.

(** X22: the only errors the legacy run step throws are those a call on
    the PlaywrightBrowser tool threw (its [execute] or its cleanup hook),
    on a browser task; the step logs the error at level "error" as its
    last event and throws the same error again.  Every other failure is
    a returned result. *)
Theorem run_step_rethrows_tool_faults
        (tools : ToolRegistry) (task : Js.str) (tr : list Event) (e : JsError) :
  LocalExecutorAgent_run tools task = (tr, Thrown e) ->
  is_browser_task task = true
  /\ (exists tool,
         registry_get (Js.lit "PlaywrightBrowser") tools = Some tool
         /\ ((exists input, def_execute (definition tool) input = Throws e)
             \/ cleanup (definition tool) = Some (Throws e)))
  /\ exists before,
       tr = before ++ [AgentLog (Js.lit "Error in task execution: " ++ error_toString e)
                                (Some (Js.lit "error"))].
Proof.
  unfold LocalExecutorAgent_run.
  destruct (is_browser_task task); [|discriminate].
  destruct (registry_get (Js.lit "PlaywrightBrowser") tools) as [tool|]; [|discriminate].
  destruct (browse tool task) as [t [r|err|n]] eqn:Hb; cbn; try discriminate.
  intros H. inversion H; subst. clear H.
  split; [reflexivity|]. split.
  - exists tool. split; [reflexivity|]. exact (browse_faults tool task Hb).
  - exists (AgentLog (Js.lit "Starting local task execution...") None :: t). reflexivity.
Qed.

Lemma run_step_rethrows_tool_faults_witness :
  is_browser_task (Js.lit "title of example.com") = true
  /\ (exists tool,
         registry_get (Js.lit "PlaywrightBrowser") (Sample.registry Sample.crashing_browser)
         = Some tool
         /\ ((exists input,
                 def_execute (definition tool) input
                 = Throws (Error_ (Js.lit "browser crashed")))
             \/ cleanup (definition tool)
                = Some (Throws (Error_ (Js.lit "browser crashed")))))
  /\ exists before,
       Eff.trace (LocalExecutorAgent_run (Sample.registry Sample.crashing_browser)
                                         (Js.lit "title of example.com"))
       = before ++ [AgentLog (Js.lit "Error in task execution: "
                              ++ error_toString (Error_ (Js.lit "browser crashed")))
                             (Some (Js.lit "error"))].
Proof.
  exact (@run_step_rethrows_tool_faults
           (Sample.registry Sample.crashing_browser) (Js.lit "title of example.com")
           (Eff.trace (LocalExecutorAgent_run (Sample.registry Sample.crashing_browser)
                                              (Js.lit "title of example.com")))
           (Error_ (Js.lit "browser crashed")) eq_refl).
Defined.
